(** * ChurnAI dashboard: the analytics and scoring pipeline

    A shallow embedding of the metric calculators
    ([src/analytics/risk_scorer.py], [clv_analyzer.py],
    [engagement_analyzer.py]), of feature preparation
    ([src/data_processor.py]), of the churn predictor ([src/model.py])
    and of the input validation of the segmentation page
    ([src/pages/segmentation.py]).

    Numbers.  pandas computes on IEEE doubles.  The embedding keeps the
    special values of that arithmetic (the two infinities and NaN, with
    their propagation rules) and takes every finite value as an exact
    rational: rounding, overflow and the sign of zero are not modelled
    (a zero divisor is the positive zero that an integer converts to).

    Tables.  A [DataFrame] is an ordered list of named, typed columns;
    assigning a column replaces it in place or appends it, looking a
    missing one up raises [KeyError], as pandas does. *)

From Stdlib Require Import QArith Qminmax Qabs Lqa ZArith List.
From stdpp Require Import gmap strings list fin_maps sorting.

Local Open Scope string_scope.

(** ** Exceptions and results *)

Inductive exn : Type :=
  | KeyError (key : string)
  | ValueError (msg : string)
  | TypeError (msg : string)
  | NotFittedError (msg : string).

Inductive result (A : Type) : Type :=
  | Ok (a : A)
  | Raise (e : exn).
Arguments Ok {A} a.
Arguments Raise {A} e.

Definition rbind {A B : Type} (r : result A) (k : A -> result B) : result B :=
  match r with
  | Ok a => k a
  | Raise e => Raise e
  end.

Notation "'do' x <- r ; k" := (rbind r (fun x => k))
  (at level 10, x name, r at level 100, k at level 200).

(** ** Floating-point values: finite rationals, infinities, NaN *)

Inductive fval : Type :=
  | Fin (q : Q)
  | PInf
  | NInf
  | NaN.

Definition Qsign (q : Q) : comparison := (q ?= 0)%Q.

Definition fneg (a : fval) : fval :=
  match a with
  | Fin q => Fin (- q)%Q
  | PInf => NInf
  | NInf => PInf
  | NaN => NaN
  end.

Definition fadd (a b : fval) : fval :=
  match a, b with
  | NaN, _ | _, NaN => NaN
  | Fin x, Fin y => Fin (x + y)%Q
  | PInf, NInf | NInf, PInf => NaN
  | PInf, _ | _, PInf => PInf
  | NInf, _ | _, NInf => NInf
  end.

Definition fsub (a b : fval) : fval := fadd a (fneg b).

(** An infinity scaled by a finite factor: NaN for zero, else by sign. *)
Definition inf_times (pos : bool) (q : Q) : fval :=
  match Qsign q with
  | Eq => NaN
  | Gt => if pos then PInf else NInf
  | Lt => if pos then NInf else PInf
  end.

Definition fmul (a b : fval) : fval :=
  match a, b with
  | NaN, _ | _, NaN => NaN
  | Fin x, Fin y => Fin (x * y)%Q
  | PInf, Fin y => inf_times true y
  | NInf, Fin y => inf_times false y
  | Fin x, PInf => inf_times true x
  | Fin x, NInf => inf_times false x
  | PInf, PInf | NInf, NInf => PInf
  | PInf, NInf | NInf, PInf => NInf
  end.

Definition fdiv (a b : fval) : fval :=
  match a, b with
  | NaN, _ | _, NaN => NaN
  | Fin x, Fin y =>
      match Qsign y with
      | Eq => match Qsign x with Eq => NaN | Gt => PInf | Lt => NInf end
      | _ => Fin (x / y)%Q
      end
  | Fin _, (PInf | NInf) => Fin 0
  | (PInf | NInf), (PInf | NInf) => NaN
  | PInf, Fin y => match Qsign y with Lt => NInf | _ => PInf end
  | NInf, Fin y => match Qsign y with Lt => PInf | _ => NInf end
  end.

Definition is_nan (a : fval) : bool :=
  match a with NaN => true | _ => false end.

(** [a < b] on doubles; every comparison with NaN is false. *)
Definition fltb (a b : fval) : bool :=
  match a, b with
  | NaN, _ | _, NaN => false
  | Fin x, Fin y => match (x ?= y)%Q with Lt => true | _ => false end
  | NInf, (Fin _ | PInf) => true
  | Fin _, PInf => true
  | _, _ => false
  end.

Definition fleb (a b : fval) : bool :=
  match a, b with
  | NaN, _ | _, NaN => false
  | Fin x, Fin y => match (x ?= y)%Q with Gt => false | _ => true end
  | NInf, _ => true
  | _, PInf => true
  | _, _ => false
  end.

Definition feqb (a b : fval) : bool := fleb a b && fleb b a.

(** The value lies in the closed interval [lo, hi]. *)
Definition in_range (lo hi : Q) (a : fval) : Prop :=
  exists q, a = Fin q /\ (lo <= q)%Q /\ (q <= hi)%Q.

Definition of_int (z : Z) : fval := Fin (inject_Z z).

(** ** Columns, series and data frames *)

Inductive Column : Type :=
  | IntCol (l : list Z)
  | FloatCol (l : list fval)
  | ObjCol (l : list string)
  | CatCol (categories : list string) (codes : list (option nat))
  | DateCol (l : list Z).

Definition DataFrame : Type := list (string * Column).

Definition col_length (c : Column) : nat :=
  match c with
  | IntCol l | DateCol l => length l
  | FloatCol l => length l
  | ObjCol l => length l
  | CatCol _ l => length l
  end.

Definition columns (df : DataFrame) : list string := map fst df.

Fixpoint lookup_col (name : string) (df : DataFrame) : option Column :=
  match df with
  | [] => None
  | (n, c) :: rest => if String.eqb n name then Some c else lookup_col name rest
  end.

(** [df[name]] *)
Definition getitem (df : DataFrame) (name : string) : result Column :=
  match lookup_col name df with
  | Some c => Ok c
  | None => Raise (KeyError name)
  end.

(** [df[name] = c]: an existing column is replaced where it stands, a new
    one is appended. *)
Fixpoint setitem (df : DataFrame) (name : string) (c : Column) : DataFrame :=
  match df with
  | [] => [(name, c)]
  | (n, c0) :: rest =>
      if String.eqb n name then (n, c) :: rest
      else (n, c0) :: setitem rest name c
  end.

(** [df.drop(names, axis=1, errors='ignore')] *)
Definition drop_ignore (df : DataFrame) (names : list string) : DataFrame :=
  List.filter (fun nc => negb (existsb (String.eqb (fst nc)) names)) df.

(** [df.drop([name], axis=1)]: a missing label raises. *)
Definition drop_col (df : DataFrame) (name : string) : result DataFrame :=
  match lookup_col name df with
  | Some _ => Ok (List.filter (fun nc => negb (String.eqb (fst nc) name)) df)
  | None => Raise (KeyError name)
  end.

(** The numeric view of a column that arithmetic works on. *)
Definition to_float (c : Column) : result (list fval) :=
  match c with
  | IntCol l => Ok (map of_int l)
  | FloatCol l => Ok l
  | ObjCol _ => Raise (TypeError "unsupported operand type(s): str")
  | CatCol _ _ => Raise (TypeError "unsupported operand type(s): Categorical")
  | DateCol _ => Raise (TypeError "unsupported operand type(s): Timestamp")
  end.

(** [Series.max()]: NaN entries are skipped; NaN when nothing is left. *)
Definition fmax_skipna (acc x : fval) : fval :=
  match acc, x with
  | a, NaN => a
  | NaN, b => b
  | a, b => if fltb a b then b else a
  end.

Definition series_max (l : list fval) : fval := fold_left fmax_skipna l NaN.

(** [Series.map(table)]: a value that is no key of the table gives NaN. *)
Definition map_value (table : gmap string Z) (s : string) : fval :=
  match table !! s with
  | Some v => of_int v
  | None => NaN
  end.

Definition series_map (table : gmap string Z) (c : Column) : list fval :=
  match c with
  | ObjCol l => map (map_value table) l
  | CatCol cats codes =>
      map (fun code =>
             match code with
             | Some i => match nth_error cats i with
                         | Some s => map_value table s
                         | None => NaN
                         end
             | None => NaN
             end) codes
  | IntCol l | DateCol l => map (fun _ => NaN) l
  | FloatCol l => map (fun _ => NaN) l
  end.

(** Element-wise operations of two series over the same index. *)
Fixpoint zip_with_f (f : fval -> fval -> fval) (a b : list fval) : list fval :=
  match a, b with
  | x :: a', y :: b' => f x y :: zip_with_f f a' b'
  | _, _ => []
  end.

(** ** The customer schema *)

Record CustomerRecord : Type := {
  CustomerID : Z;
  Gender : string;
  Age : Z;
  Tenure : Z;
  ContractType : string;
  MonthlyCharges : Q;
  TotalCharges : Q;
  InternetService : string;
  PhoneService : string;
  StreamingTV : string;
  StreamingMovies : string;
  PaymentMethod : string;
  SatisfactionScore : Q;
  Churn : Z;
  LastUpdate : Z
}.

(** The frame of a list of customers: the columns of the generated data
    set ([utils/seeder.py]) and the loader's [LastUpdate]. *)
Definition frame_of (rs : list CustomerRecord) : DataFrame :=
  [ ("CustomerID", IntCol (map CustomerID rs));
    ("Gender", ObjCol (map Gender rs));
    ("Age", IntCol (map Age rs));
    ("Tenure", IntCol (map Tenure rs));
    ("ContractType", ObjCol (map ContractType rs));
    ("MonthlyCharges", FloatCol (map (fun r => Fin (MonthlyCharges r)) rs));
    ("TotalCharges", FloatCol (map (fun r => Fin (TotalCharges r)) rs));
    ("InternetService", ObjCol (map InternetService rs));
    ("PhoneService", ObjCol (map PhoneService rs));
    ("StreamingTV", ObjCol (map StreamingTV rs));
    ("StreamingMovies", ObjCol (map StreamingMovies rs));
    ("PaymentMethod", ObjCol (map PaymentMethod rs));
    ("SatisfactionScore", FloatCol (map (fun r => Fin (SatisfactionScore r)) rs));
    ("Churn", IntCol (map Churn rs));
    ("LastUpdate", DateCol (map LastUpdate rs)) ].

Definition base_columns : list string :=
  [ "CustomerID"; "Gender"; "Age"; "Tenure"; "ContractType";
    "MonthlyCharges"; "TotalCharges"; "InternetService"; "PhoneService";
    "StreamingTV"; "StreamingMovies"; "PaymentMethod"; "SatisfactionScore";
    "Churn"; "LastUpdate" ].

(** ** Risk scorer ([src/analytics/risk_scorer.py]) *)

Module RiskScorer.

Definition contract_risk_table : gmap string Z :=
  {[ "Month-to-Month" := 100%Z; "One Year" := 50%Z; "Two Year" := 25%Z ]}.

Definition payment_risk_table : gmap string Z :=
  {[ "Electronic check" := 80%Z; "Mailed check" := 60%Z;
     "Bank transfer (automatic)" := 40%Z; "Credit card (automatic)" := 40%Z ]}.

Definition w_tenure : fval := Fin (3 # 10).
Definition w_satisfaction : fval := Fin (3 # 10).
Definition w_contract : fval := Fin (2 # 10).
Definition w_payment : fval := Fin (2 # 10).

Definition hundred : fval := Fin 100.

(** [100 - (x / d * 100)] *)
Definition risk_of_ratio (d x : fval) : fval :=
  fsub hundred (fmul (fdiv x d) hundred).

Definition scale (w : fval) (l : list fval) : list fval :=
  map (fun x => fmul x w) l.

Definition calculate_risk_score (df : DataFrame) : result (list fval) :=
  do tenure_c <- getitem df "Tenure";
  do tenure <- to_float tenure_c;
  let tenure_risk := map (risk_of_ratio (series_max tenure)) tenure in
  do sat_c <- getitem df "SatisfactionScore";
  do sat <- to_float sat_c;
  let satisfaction_risk := map (risk_of_ratio (Fin 5)) sat in
  do contract_c <- getitem df "ContractType";
  let contract_risk := series_map contract_risk_table contract_c in
  do payment_c <- getitem df "PaymentMethod";
  let payment_risk := series_map payment_risk_table payment_c in
  (* sum(...) starts from the integer 0 and adds the factors in order *)
  let s0 := map (fadd (Fin 0)) (scale w_tenure tenure_risk) in
  let s1 := zip_with_f fadd s0 (scale w_satisfaction satisfaction_risk) in
  let s2 := zip_with_f fadd s1 (scale w_contract contract_risk) in
  let s3 := zip_with_f fadd s2 (scale w_payment payment_risk) in
  Ok s3.

End RiskScorer.

(** ** Binning ([pandas.cut], [pandas.qcut]) *)

(** [bins.searchsorted(x, side="left")] on ascending edges: the number of
    leading edges strictly below [x]. *)
Fixpoint searchsorted_left (bins : list Q) (x : fval) : nat :=
  match bins with
  | [] => 0
  | b :: rest => if fltb (Fin b) x then S (searchsorted_left rest x) else 0
  end.

(** The bin of a value for right-closed intervals: [ids] counts the edges
    below it; the lowest edge itself is taken into the first bin only with
    [include_lowest]; a value outside all intervals, or NaN, gets no bin. *)
Definition bins_to_cuts (bins : list Q) (include_lowest : bool) (x : fval)
  : option nat :=
  let ids := searchsorted_left bins x in
  let ids :=
    match bins with
    | b0 :: _ => if include_lowest && feqb x (Fin b0) then 1 else ids
    | [] => ids
    end in
  if is_nan x || Nat.eqb ids (length bins) || Nat.eqb ids 0 then None
  else Some (ids - 1).

(** [pd.cut(values, bins=bins, labels=labels)] with the defaults
    [right=True, include_lowest=False]. *)
Definition cut (values : list fval) (bins : list Q) (labels : list string)
  : Column :=
  CatCol labels (map (bins_to_cuts bins false) values).

#[global] Instance Qle_decision (x y : Q) : Decision (x <= y)%Q.
Proof.
  refine (cast_if (decide (Qle_bool x y = true))); by rewrite <- Qle_bool_iff.
Defined.

(** [Series.quantile(num/den)] with linear interpolation, on the sorted
    values: position [(n-1)*num/den], split into its integer part and the
    fraction that weighs the next value. *)
Definition quantile_linear (sorted : list Q) (num den : nat) : Q :=
  let n := length sorted in
  let pos := ((n - 1) * num)%nat in
  let lo := (pos / den)%nat in
  let r := (pos mod den)%nat in
  let a := nth lo sorted 0%Q in
  let b := nth (Nat.min (lo + 1) (n - 1)) sorted 0%Q in
  (a + (b - a) * (Z.of_nat r # Pos.of_nat den))%Q.

Definition quartile_edges (values : list Q) : list Q :=
  let sorted := merge_sort Qle values in
  map (fun j => quantile_linear sorted j 4) [0; 1; 2; 3; 4]%nat.

Fixpoint has_duplicate (l : list Q) : bool :=
  match l with
  | [] => false
  | x :: rest => existsb (Qeq_bool x) rest || has_duplicate rest
  end.

Definition finite_value (a : fval) : option Q :=
  match a with Fin q => Some q | _ => None end.

(** [pd.qcut(values, q=4, labels=labels)]: quartile edges of the values,
    then the bins with [include_lowest=True]; equal edges are refused.
    The embedding covers finite values: a series holding NaN or an
    infinity is outside it and is reported as a [ValueError] as well. *)
Definition qcut4 (values : list fval) (labels : list string) : result Column :=
  match mapM finite_value values with
  | None => Raise (ValueError "non-finite value")
  | Some qs =>
      match qs with
      | [] => Raise (ValueError "Bin edges must be unique")
      | _ =>
          let bins := quartile_edges qs in
          if has_duplicate bins then Raise (ValueError "Bin edges must be unique")
          else Ok (CatCol labels (map (bins_to_cuts bins true) values))
      end
  end.

(** ** Aggregates *)

Definition fsum (l : list fval) : fval := fold_left fadd l (Fin 0).

(** [mean]: the sum over the count; NaN for no rows. *)
Definition fmean (l : list fval) : fval :=
  fdiv (fsum l) (of_int (Z.of_nat (length l))).

(** The entries of a series at the rows that carry the given code. *)
Fixpoint select_group {A : Type} (code : nat) (codes : list (option nat))
  (l : list A) : list A :=
  match codes, l with
  | c :: codes', x :: l' =>
      if decide (c = Some code) then x :: select_group code codes' l'
      else select_group code codes' l'
  | _, _ => []
  end.

Module RiskCategories.
Import RiskScorer.

Definition risk_bins : list Q := [0; 30; 60; 100]%Q.
Definition risk_labels : list string := ["Low Risk"; "Medium Risk"; "High Risk"].

Definition get_risk_categories (df : DataFrame) : result Column :=
  do risk_scores <- calculate_risk_score df;
  Ok (cut risk_scores risk_bins risk_labels).

End RiskCategories.

(** The label of row [i] of a categorical column; [Some None] is a row
    without category (NaN). *)
Definition category_at (c : Column) (i : nat) : option (option string) :=
  match c with
  | CatCol cats codes =>
      match nth_error codes i with
      | Some (Some k) => Some (nth_error cats k)
      | Some None => Some None
      | None => None
      end
  | _ => None
  end.

(** ** CLV analyzer ([src/analytics/clv_analyzer.py]) *)

Module CLVAnalyzer.

(** [self.df['CLV'] = self.df['MonthlyCharges'] * self.df['Tenure']];
    the analyzer works on the shared frame, which is threaded through.
    Arithmetic on a column that is not numeric is reported as [TypeError]. *)
Definition calculate_basic_clv (df : DataFrame)
  : DataFrame * result (list fval) :=
  match
    (do mc <- getitem df "MonthlyCharges";
     do t <- getitem df "Tenure";
     do m <- to_float mc;
     do t' <- to_float t;
     Ok (zip_with_f fmul m t'))
  with
  | Ok clv => (setitem df "CLV" (FloatCol clv), Ok clv)
  | Raise e => (df, Raise e)
  end.

Definition value_labels : list string := ["Bronze"; "Silver"; "Gold"; "Platinum"].

Record SegmentRow : Type := {
  segment : string;
  mean_MonthlyCharges : fval;
  mean_Tenure : fval;
  mean_Churn : fval;
  sum_TotalCharges : fval
}.

(** [df.groupby('ValueSegment').agg({...})]: one row per category, in
    category order, also for a category without members. *)
Definition groupby_agg (cats : list string) (codes : list (option nat))
  (monthly tenure churn total : list fval) : list SegmentRow :=
  imap (fun k label =>
          {| segment := label;
             mean_MonthlyCharges := fmean (select_group k codes monthly);
             mean_Tenure := fmean (select_group k codes tenure);
             mean_Churn := fmean (select_group k codes churn);
             sum_TotalCharges := fsum (select_group k codes total) |}) cats.

Definition segment_value_analysis (df : DataFrame)
  : DataFrame * result (list SegmentRow) :=
  match (do tc <- getitem df "TotalCharges";
         do total <- to_float tc;
         qcut4 total value_labels) with
  | Raise e => (df, Raise e)
  | Ok seg =>
      let df' := setitem df "ValueSegment" seg in
      (df',
       match seg with
       | CatCol cats codes =>
           do mc <- getitem df' "MonthlyCharges";
           do t <- getitem df' "Tenure";
           do ch <- getitem df' "Churn";
           do tc <- getitem df' "TotalCharges";
           do monthly <- to_float mc;
           do tenure <- to_float t;
           do churn <- to_float ch;
           do total <- to_float tc;
           Ok (groupby_agg cats codes monthly tenure churn total)
       | _ => Raise (TypeError "not a categorical")
       end)
  end.

End CLVAnalyzer.

(** ** Engagement analyzer ([src/analytics/engagement_analyzer.py]) *)

(** [column != 'No'], element-wise: only a string can equal ['No']. *)
Definition ne_No (c : Column) : list bool :=
  match c with
  | ObjCol l => map (fun s => negb (String.eqb s "No")) l
  | CatCol cats codes =>
      map (fun code =>
             match code with
             | Some k => match nth_error cats k with
                         | Some s => negb (String.eqb s "No")
                         | None => true
                         end
             | None => true
             end) codes
  | IntCol l | DateCol l => map (fun _ => true) l
  | FloatCol l => map (fun _ => true) l
  end.

Definition service_columns : list string :=
  ["PhoneService"; "InternetService"; "StreamingTV"; "StreamingMovies"].

Fixpoint getitems (df : DataFrame) (names : list string) : result (list Column) :=
  match names with
  | [] => Ok []
  | n :: rest =>
      do c <- getitem df n;
      do cs <- getitems df rest;
      Ok (c :: cs)
  end.

Definition add_flags (acc : list Z) (flags : list bool) : list Z :=
  zip_with (fun n (b : bool) => if b then (n + 1)%Z else n) acc flags.

(** [df[service_columns].apply(lambda x: sum(x != 'No'), axis=1)]: per row,
    the number of the selected columns whose entry is not ['No']. *)
Definition count_services (df : DataFrame) : result (list Z) :=
  do cols <- getitems df service_columns;
  let rows := match cols with c :: _ => col_length c | [] => 0%nat end in
  Ok (fold_left add_flags (map ne_No cols) (replicate rows 0%Z)).

Module EngagementAnalyzer.

Definition contract_score_table : gmap string Z :=
  {[ "Month-to-Month" := 33%Z; "One Year" := 66%Z; "Two Year" := 100%Z ]}.

Definition calculate_engagement_score (df : DataFrame) : result (list fval) :=
  do counts <- count_services df;
  let service_score :=
    map (fun n => fmul (fdiv (of_int n) (of_int (Z.of_nat (length service_columns))))
                       (Fin 100)) counts in
  do tenure_c <- getitem df "Tenure";
  do tenure <- to_float tenure_c;
  let tenure_score :=
    map (fun t => fmul (fdiv t (series_max tenure)) (Fin 100)) tenure in
  do contract_c <- getitem df "ContractType";
  let contract_score := series_map contract_score_table contract_c in
  Ok (zip_with_f fadd
        (zip_with_f fadd
           (map (fun x => fmul x (Fin (4 # 10))) service_score)
           (map (fun x => fmul x (Fin (3 # 10))) tenure_score))
        (map (fun x => fmul x (Fin (3 # 10))) contract_score)).

End EngagementAnalyzer.

(** ** Label encoding ([sklearn.preprocessing.LabelEncoder]) *)

(** An encoder holds its classes once fitted. *)
Record LabelEncoder : Type := { classes_ : option (list string) }.

Fixpoint insert_unique (s : string) (l : list string) : list string :=
  match l with
  | [] => [s]
  | x :: rest =>
      match String.compare s x with
      | Lt => s :: l
      | Eq => l
      | Gt => x :: insert_unique s rest
      end
  end.

(** The sorted distinct values. *)
Definition np_unique (l : list string) : list string :=
  fold_right insert_unique [] l.

Fixpoint index_of (s : string) (l : list string) : Z :=
  match l with
  | [] => 0
  | x :: rest => if String.eqb x s then 0 else (1 + index_of s rest)%Z
  end.

Definition LabelEncoder_fit_transform (values : list string)
  : LabelEncoder * list Z :=
  let classes := np_unique values in
  ({| classes_ := Some classes |}, map (fun s => index_of s classes) values).

Definition is_object (c : Column) : bool :=
  match c with ObjCol _ => true | _ => false end.

Definition is_numeric (c : Column) : bool :=
  match c with IntCol _ | FloatCol _ => true | _ => false end.

(** [df.select_dtypes(include=...).columns] *)
Definition select_dtypes (keep : Column -> bool) (df : DataFrame) : list string :=
  map fst (List.filter (fun nc => keep (snd nc)) df).

Definition numeric_values (c : Column) : list fval :=
  match c with
  | IntCol l => map of_int l
  | FloatCol l => l
  | _ => []
  end.

(** [df[names] = values], column by column. *)
Fixpoint assign_columns (df : DataFrame) (names : list string)
  (values : list (list fval)) : DataFrame :=
  match names, values with
  | n :: names', v :: values' => assign_columns (setitem df n (FloatCol v)) names' values'
  | _, _ => df
  end.

(** [x.clip(lower)] *)
Definition clip_lower (lo x : fval) : fval := if fltb x lo then lo else x.

(** ** Data processor ([src/data_processor.py]) *)

Section DataProcessing.

(** [sklearn.preprocessing.StandardScaler] is taken as given: the state
    of a scaler object, the fresh scaler, and [fit_transform], which
    turns the scaler it is called on into its next state and returns
    the scaled columns or raises. *)
Variable StandardScaler : Type.
Variable StandardScaler_new : StandardScaler.
Variable StandardScaler_fit_transform :
  StandardScaler -> list (list fval) -> StandardScaler * result (list (list fval)).

Record DataProcessor : Type := {
  df : DataFrame;
  scaler : StandardScaler;
  label_encoders : gmap string LabelEncoder
}.

Definition DataProcessor_init (d : DataFrame) : DataProcessor :=
  {| df := d; scaler := StandardScaler_new; label_encoders := ∅ |}.

(** One round of the loop over the categorical columns: a new encoder
    is stored under the column's name and fitted on the column, whose
    values are replaced by their codes. *)
Definition encode_column (st : gmap string LabelEncoder * DataFrame)
  (col : string) : gmap string LabelEncoder * DataFrame :=
  match lookup_col col st.2 with
  | Some (ObjCol values) =>
      let enc := LabelEncoder_fit_transform values in
      (<[col := enc.1]> st.1, setitem st.2 col (IntCol enc.2))
  | _ => st
  end.

Definition prepare_model_data (p : DataProcessor) (target_col : string)
  : DataProcessor * result (DataFrame * Column) :=
  let model_df := drop_ignore (df p) ["CustomerID"; "LastUpdate"] in
  let categorical_cols := select_dtypes is_object model_df in
  let st := fold_left encode_column categorical_cols (label_encoders p, model_df) in
  let p1 := {| df := df p; scaler := scaler p; label_encoders := st.1 |} in
  let model_df := st.2 in
  match drop_col model_df target_col with
  | Raise e => (p1, Raise e)
  | Ok X =>
      match getitem model_df target_col with
      | Raise e => (p1, Raise e)
      | Ok y =>
          let numerical_cols := select_dtypes is_numeric X in
          let data := map (fun nc => numeric_values (snd nc))
                          (List.filter (fun nc => is_numeric (snd nc)) X) in
          let fitted := StandardScaler_fit_transform (scaler p) data in
          let p2 := {| df := df p; scaler := fitted.1; label_encoders := st.1 |} in
          match fitted.2 with
          | Raise e => (p2, Raise e)
          | Ok scaled => (p2, Ok (assign_columns X numerical_cols scaled, y))
          end
      end
  end.

Definition with_df (p : DataProcessor) (d : DataFrame) : DataProcessor :=
  {| df := d; scaler := scaler p; label_encoders := label_encoders p |}.

(** The three assignments follow one another on [self.df]; one that
    raises leaves the earlier ones in place. *)
Definition calculate_customer_metrics (p : DataProcessor)
  : DataProcessor * result DataFrame :=
  match (do mc <- getitem (df p) "MonthlyCharges";
         do t <- getitem (df p) "Tenure";
         do m <- to_float mc;
         do t' <- to_float t;
         Ok (zip_with_f fmul m t')) with
  | Raise e => (p, Raise e)
  | Ok clv =>
      let d1 := setitem (df p) "CLV" (FloatCol clv) in
      match (do tc <- getitem d1 "TotalCharges";
             do t <- getitem d1 "Tenure";
             do total <- to_float tc;
             do t' <- to_float t;
             Ok (zip_with_f fdiv total (map (clip_lower (Fin 1)) t'))) with
      | Raise e => (with_df p d1, Raise e)
      | Ok arpu =>
          let d2 := setitem d1 "ARPU" (FloatCol arpu) in
          match count_services d2 with
          | Raise e => (with_df p d2, Raise e)
          | Ok score =>
              let d3 := setitem d2 "ServiceUsageScore" (IntCol score) in
              (with_df p d3, Ok d3)
          end
      end
  end.

End DataProcessing.

Arguments df {StandardScaler} _.
Arguments scaler {StandardScaler} _.
Arguments label_encoders {StandardScaler} _.

(** The encoder found under the name [c] once the loop of
    [prepare_model_data] has run over the columns [cats] of the frame [d],
    starting from the encoders [encs]. *)
Definition encoder_after (encs : gmap string LabelEncoder) (d : DataFrame)
  (cats : list string) (c : string) : option LabelEncoder :=
  match lookup_col c d with
  | Some (ObjCol values) =>
      if decide (c ∈ cats) then Some (LabelEncoder_fit_transform values).1
      else encs !! c
  | _ => encs !! c
  end.

(** ** Churn predictor ([src/model.py]) *)

Section Prediction.

(** [sklearn]'s random forest is taken as given: what a fitted forest
    is, how [fit] changes a classifier object, and what a fitted forest
    predicts.  A classifier that holds no fitted forest answers every
    prediction with [NotFittedError]; this is the library's
    [check_is_fitted], the first statement of its [predict_proba]. *)
Variable Fitted : Type.
Variable Metrics : Type.

Record RandomForestClassifier : Type := {
  n_estimators : Z;
  max_depth : Z;
  estimators_ : option Fitted
}.

Variable train_test_split :
  DataFrame -> Column -> result (DataFrame * DataFrame * Column * Column).
Variable forest_fit :
  RandomForestClassifier -> DataFrame -> Column -> RandomForestClassifier * result unit.
Variable fitted_predict : Fitted -> DataFrame -> result Column.
Variable fitted_predict_proba : Fitted -> DataFrame -> result (list (list fval)).
Variable fitted_feature_importances : Fitted -> list fval.
Variable evaluate :
  RandomForestClassifier -> DataFrame -> Column -> Column -> Column ->
  list (list fval) -> result Metrics.
Variable sort_values_descending : list (string * fval) -> list (string * fval).

Definition not_fitted : exn :=
  NotFittedError "This RandomForestClassifier instance is not fitted yet.".

Definition model_predict (m : RandomForestClassifier) (X : DataFrame)
  : result Column :=
  match estimators_ m with
  | None => Raise not_fitted
  | Some f => fitted_predict f X
  end.

Definition model_predict_proba (m : RandomForestClassifier) (X : DataFrame)
  : result (list (list fval)) :=
  match estimators_ m with
  | None => Raise not_fitted
  | Some f => fitted_predict_proba f X
  end.

Definition model_feature_importances (m : RandomForestClassifier)
  : result (list fval) :=
  match estimators_ m with
  | None => Raise not_fitted
  | Some f => Ok (fitted_feature_importances f)
  end.

Record ChurnPredictor : Type := {
  model : RandomForestClassifier;
  feature_importance : option (list (string * fval))
}.

Definition ChurnPredictor_init (n_estimators max_depth : Z) : ChurnPredictor :=
  {| model := {| n_estimators := n_estimators; max_depth := max_depth;
                 estimators_ := None |};
     feature_importance := None |}.

Definition train (p : ChurnPredictor) (X : DataFrame) (y : Column)
  : ChurnPredictor * result Metrics :=
  match train_test_split X y with
  | Raise e => (p, Raise e)
  | Ok (X_train, X_test, y_train, y_test) =>
      let fit := forest_fit (model p) X_train y_train in
      let p1 := {| model := fit.1; feature_importance := feature_importance p |} in
      match (do _ <- fit.2;
             do y_pred <- model_predict fit.1 X_test;
             do y_prob <- model_predict_proba fit.1 X_test;
             do metrics <- evaluate fit.1 X y y_test y_pred y_prob;
             do importances <- model_feature_importances fit.1;
             Ok (metrics, importances)) with
      | Raise e => (p1, Raise e)
      | Ok (metrics, importances) =>
          ({| model := fit.1;
              feature_importance :=
                Some (sort_values_descending (combine (columns X) importances)) |},
           Ok metrics)
      end
  end.

(** The [except] clause logs and raises again: the error is the
    library's. *)
Definition predict (p : ChurnPredictor) (X : DataFrame)
  : result (list (list fval)) :=
  model_predict_proba (model p) X.

(** [DataFrame.head(n)]: the first [n] rows, or all but the last [-n]. *)
Definition head {A : Type} (n : Z) (l : list A) : list A :=
  if (0 <=? n)%Z then firstn (Z.to_nat n) l
  else firstn (length l - Z.to_nat (- n)) l.

Definition get_top_features (p : ChurnPredictor) (n : Z)
  : result (list (string * fval)) :=
  match feature_importance p with
  | None => Raise (ValueError "Model hasn't been trained yet")
  | Some fi => Ok (head n fi)
  end.

End Prediction.

(** ** Segmentation page ([src/pages/segmentation.py]) *)

(** What the page shows, in order. *)
Inductive ui_event : Type :=
  | Subheader (text : string)
  | Warning (text : string)
  | Tabs (shown : list string).

(** [Series.mean()] skips NaN; [fillna] puts a value in their place. *)
Definition mean_skipna (l : list fval) : fval :=
  fmean (List.filter (fun x => negb (is_nan x)) l).

Definition fillna (v : fval) (l : list fval) : list fval :=
  map (fun x => if is_nan x then v else x) l.

Fixpoint to_floats (cols : list Column) : result (list (list fval)) :=
  match cols with
  | [] => Ok []
  | c :: rest =>
      do l <- to_float c;
      do ls <- to_floats rest;
      Ok (l :: ls)
  end.

Section Segmentation.

(** Scaling, k-means and the charts of the page are taken as given. *)
Variable standard_scale : list (list fval) -> result (list (list fval)).
Variable KMeans_fit_predict : Z -> list (list fval) -> result (list Z).
Variable render_tabs : DataFrame -> list string -> result (list ui_event).

(** The widgets' values are the page's inputs: the slider's
    [n_clusters] and the multiselect's [selected_features].  The page
    returns [None]; the frame it was given is changed in place. *)
Definition render_segmentation_page (df : DataFrame) (n_clusters : Z)
  (selected_features : list string)
  : DataFrame * list ui_event * result unit :=
  let shown := [Subheader "Customer Segmentation Analysis";
                Subheader "Segmentation Parameters";
                Subheader "Feature Selection"] in
  if (length selected_features <? 2)%nat then
    (df, (shown ++ [Warning "Please select at least 2 features for segmentation"])%list,
     Ok tt)
  else
    match (do cols <- getitems df selected_features;
           do X <- to_floats cols;
           let X := map (fun l => fillna (mean_skipna l) l) X in
           do X_scaled <- standard_scale X;
           KMeans_fit_predict n_clusters X_scaled) with
    | Raise e => (df, shown, Raise e)
    | Ok labels =>
        let df' := setitem df "Segment" (IntCol labels) in
        match render_tabs df' selected_features with
        | Raise e => (df', shown, Raise e)
        | Ok events => (df', (shown ++ events)%list, Ok tt)
        end
    end.

End Segmentation.


(** ** Service adoption and engagement insights
    ([src/analytics/engagement_analyzer.py]) *)

Module EngagementInsights.

(** [df[service_columns].apply(lambda x: sum(x != 'No'), axis=1)
     / len(service_columns)] *)
Definition calculate_service_adoption (df : DataFrame) : result (list fval) :=
  do counts <- count_services df;
  Ok (map (fun n => fdiv (of_int n)
                         (of_int (Z.of_nat (length service_columns)))) counts).

Definition commitment_table : gmap string string :=
  {[ "Month-to-Month" := "Low"; "One Year" := "Medium"; "Two Year" := "High" ]}.

(** [Series.map(table)] with labels as values; [None] is the missing
    value (NaN) of a contract type that is no key. *)
Definition map_labels (table : gmap string string) (c : Column)
  : list (option string) :=
  match c with
  | ObjCol l => map (fun s => table !! s) l
  | CatCol cats codes =>
      map (fun code =>
             match code with
             | Some i => match nth_error cats i with
                         | Some s => table !! s
                         | None => None
                         end
             | None => None
             end) codes
  | IntCol l | DateCol l => map (fun _ => None) l
  | FloatCol l => map (fun _ => None) l
  end.

(** The frame of insights, by its four columns. *)
Record Insights : Type := {
  EngagementScore : list fval;
  ServiceAdoption : list fval;
  ContractCommitment : list (option string);
  TenureColumn : Column
}.

Definition get_engagement_insights (df : DataFrame) : result Insights :=
  do engagement_score <- EngagementAnalyzer.calculate_engagement_score df;
  do adoption <- calculate_service_adoption df;
  do contract_c <- getitem df "ContractType";
  do tenure_c <- getitem df "Tenure";
  Ok {| EngagementScore := engagement_score;
        ServiceAdoption := adoption;
        ContractCommitment := map_labels commitment_table contract_c;
        TenureColumn := tenure_c |}.

End EngagementInsights.

(** ** Recommendation engine ([src/analytics/recommendation_engine.py]) *)

(** One entry of a row. *)
Inductive Cell : Type :=
  | CInt (z : Z)
  | CFloat (x : fval)
  | CStr (s : string)
  | CCat (s : option string)
  | CDate (z : Z).

(** The entry of a column at a row; a column that ends before the row
    reads as missing there. *)
Definition cell_at (c : Column) (i : nat) : Cell :=
  match c with
  | IntCol l => match l !! i with Some z => CInt z | None => CFloat NaN end
  | FloatCol l => match l !! i with Some x => CFloat x | None => CFloat NaN end
  | ObjCol l => match l !! i with Some s => CStr s | None => CFloat NaN end
  | CatCol cats codes =>
      match codes !! i with
      | Some (Some k) => CCat (cats !! k)
      | _ => CCat None
      end
  | DateCol l => match l !! i with Some z => CDate z | None => CFloat NaN end
  end.

(** [cell == s] and [cell != s] for a string [s]. *)
Definition cell_eq_str (c : Cell) (s : string) : bool :=
  match c with
  | CStr t => String.eqb t s
  | CCat (Some t) => String.eqb t s
  | _ => false
  end.

Definition cell_ne_str (c : Cell) (s : string) : bool := negb (cell_eq_str c s).

(** [cell > q] and [cell < q] for a number [q]: false on NaN, a
    [TypeError] on what is not a number. *)
Definition cell_gt (c : Cell) (q : Q) : result bool :=
  match c with
  | CInt z => Ok (fltb (Fin q) (of_int z))
  | CFloat x => Ok (fltb (Fin q) x)
  | CCat None => Ok false
  | _ => Raise (TypeError "'>' not supported between instances")
  end.

Definition cell_lt (c : Cell) (q : Q) : result bool :=
  match c with
  | CInt z => Ok (fltb (of_int z) (Fin q))
  | CFloat x => Ok (fltb x (Fin q))
  | CCat None => Ok false
  | _ => Raise (TypeError "'<' not supported between instances")
  end.

(** [column == z], element-wise, for an integer [z]. *)
Definition eq_int_mask (c : Column) (z : Z) : list bool :=
  match c with
  | IntCol l => map (fun x => Z.eqb x z) l
  | FloatCol l => map (fun x => feqb x (of_int z)) l
  | ObjCol l => map (fun _ => false) l
  | CatCol _ l => map (fun _ => false) l
  | DateCol l => map (fun _ => false) l
  end.

Fixpoint first_true (mask : list bool) : option nat :=
  match mask with
  | [] => None
  | true :: _ => Some 0%nat
  | false :: rest => option_map S (first_true rest)
  end.

(** The entries of a series at the rows the mask selects. *)
Fixpoint select_rows {A : Type} (mask : list bool) (l : list A) : list A :=
  match mask, l with
  | b :: mask', x :: l' =>
      if b then x :: select_rows mask' l' else select_rows mask' l'
  | _, _ => []
  end.

Module RecommendationEngine.

Record Recommendation : Type := {
  type : string;
  description : string;
  priority : string
}.

(** What a call raises: an exception of the frame operations, or the
    [IndexError] of [iloc[0]] on an empty selection. *)
Inductive raised : Type :=
  | Exn (e : exn)
  | IndexError (msg : string).

Inductive outcome (A : Type) : Type :=
  | Returns (a : A)
  | Raises (r : raised).
Arguments Returns {A} a.
Arguments Raises {A} r.

Definition of_result {A : Type} (r : result A) : outcome A :=
  match r with
  | Ok a => Returns a
  | Raise e => Raises (Exn e)
  end.

(** [customer[name]] for the row [i] of the frame. *)
Definition row_item (df : DataFrame) (i : nat) (name : string) : result Cell :=
  do c <- getitem df name;
  Ok (cell_at c i).

Definition contract_upgrade (high : bool) : Recommendation :=
  {| type := "Contract Upgrade";
     description := "Consider upgrading to an annual contract for better rates";
     priority := if high then "High" else "Medium" |}.

Definition add_streaming_tv : Recommendation :=
  {| type := "Service Addition";
     description := "Add StreamingTV service to your package";
     priority := "Medium" |}.

Definition add_streaming_movies : Recommendation :=
  {| type := "Service Addition";
     description := "Add StreamingMovies service to your package";
     priority := "Medium" |}.

Definition satisfaction_review : Recommendation :=
  {| type := "Retention";
     description := "Schedule customer satisfaction review";
     priority := "High" |}.

(** The rules on the row [i], in the order of the code; each one appends
    to the list so far. *)
Definition personalized_rules (df : DataFrame) (i : nat)
  : result (list Recommendation) :=
  let customer := row_item df i in
  do contract <- customer "ContractType";
  do recs1 <-
    (if cell_eq_str contract "Month-to-Month" then
       do charges <- customer "MonthlyCharges";
       do high <- cell_gt charges 70;
       Ok [contract_upgrade high]
     else Ok []);
  do internet <- customer "InternetService";
  do recs2 <-
    (if cell_ne_str internet "No" then
       do tv <- customer "StreamingTV";
       let recs := if cell_eq_str tv "No" then (recs1 ++ [add_streaming_tv])%list
                   else recs1 in
       do movies <- customer "StreamingMovies";
       Ok (if cell_eq_str movies "No" then (recs ++ [add_streaming_movies])%list
           else recs)
     else Ok recs1);
  do satisfaction <- customer "SatisfactionScore";
  do low <- cell_lt satisfaction 3;
  Ok (if low then (recs2 ++ [satisfaction_review])%list else recs2).

Definition get_personalized_recommendations (df : DataFrame) (customer_id : Z)
  : outcome (list Recommendation) :=
  match getitem df "CustomerID" with
  | Raise e => Raises (Exn e)
  | Ok ids =>
      match first_true (eq_int_mask ids customer_id) with
      | None => Raises (IndexError "single positional indexer is out-of-bounds")
      | Some i => of_result (personalized_rules df i)
      end
  end.

Definition retention_program : Recommendation :=
  {| type := "Retention";
     description := "Implement targeted retention program";
     priority := "High" |}.

Definition satisfaction_initiative : Recommendation :=
  {| type := "Satisfaction";
     description := "Launch satisfaction improvement initiative";
     priority := "High" |}.

Definition engagement_program : Recommendation :=
  {| type := "Engagement";
     description := "Develop early-stage engagement program";
     priority := "Medium" |}.

(** [segment_data[name].mean()] over the rows of the mask. *)
Definition segment_mean (df : DataFrame) (mask : list bool) (name : string)
  : result fval :=
  do c <- getitem df name;
  do values <- to_float c;
  Ok (mean_skipna (select_rows mask values)).

Definition get_segment_recommendations (df : DataFrame) (segment : Z)
  : result (list Recommendation) :=
  do segments <- getitem df "Segment";
  let mask := eq_int_mask segments segment in
  do avg_satisfaction <- segment_mean df mask "SatisfactionScore";
  do churn_rate <- segment_mean df mask "Churn";
  do avg_tenure <- segment_mean df mask "Tenure";
  let recs1 := if fltb (Fin (3 # 10)) churn_rate then [retention_program] else [] in
  let recs2 := if fltb avg_satisfaction (Fin (35 # 10))
               then (recs1 ++ [satisfaction_initiative])%list else recs1 in
  Ok (if fltb avg_tenure (Fin 12) then (recs2 ++ [engagement_program])%list
      else recs2).

End RecommendationEngine.


(** ** Row-wise reading of the calculators

    What the column operations of a calculator compute for one customer,
    given the divisor [d] that [Tenure.max()] contributes. *)

Definition risk_row (d : fval) (r : CustomerRecord) : fval :=
  fadd (fadd (fadd (fadd (Fin 0)
    (fmul (RiskScorer.risk_of_ratio d (of_int (Tenure r))) RiskScorer.w_tenure))
    (fmul (RiskScorer.risk_of_ratio (Fin 5) (Fin (SatisfactionScore r)))
          RiskScorer.w_satisfaction))
    (fmul (map_value RiskScorer.contract_risk_table (ContractType r))
          RiskScorer.w_contract))
    (fmul (map_value RiskScorer.payment_risk_table (PaymentMethod r))
          RiskScorer.w_payment).

Definition service_count (r : CustomerRecord) : Z :=
  let flag (s : string) : Z := if String.eqb s "No" then 0%Z else 1%Z in
  (flag (PhoneService r) + flag (InternetService r)
   + flag (StreamingTV r) + flag (StreamingMovies r))%Z.

Definition engagement_row (d : fval) (r : CustomerRecord) : fval :=
  fadd (fadd
    (fmul (fmul (fdiv (of_int (service_count r)) (of_int 4)) (Fin 100)) (Fin (4 # 10)))
    (fmul (fmul (fdiv (of_int (Tenure r)) d) (Fin 100)) (Fin (3 # 10))))
    (fmul (map_value EngagementAnalyzer.contract_score_table (ContractType r))
          (Fin (3 # 10))).

(** ** The specification's formulas and preconditions *)

Module Spec.

Inductive contract_risk : string -> Q -> Prop :=
  | contract_risk_monthly : contract_risk "Month-to-Month" 100
  | contract_risk_one_year : contract_risk "One Year" 50
  | contract_risk_two_year : contract_risk "Two Year" 25.

Inductive payment_risk : string -> Q -> Prop :=
  | payment_risk_electronic : payment_risk "Electronic check" 80
  | payment_risk_mailed : payment_risk "Mailed check" 60
  | payment_risk_bank : payment_risk "Bank transfer (automatic)" 40
  | payment_risk_card : payment_risk "Credit card (automatic)" 40.

Inductive contract_score : string -> Q -> Prop :=
  | contract_score_monthly : contract_score "Month-to-Month" 33
  | contract_score_one_year : contract_score "One Year" 66
  | contract_score_two_year : contract_score "Two Year" 100.

Definition contract_types : list string :=
  ["Month-to-Month"; "One Year"; "Two Year"].

Definition payment_methods : list string :=
  ["Electronic check"; "Mailed check"; "Bank transfer (automatic)";
   "Credit card (automatic)"].

(** [m] is the largest tenure of the data set. *)
Definition is_max_tenure (rs : list CustomerRecord) (m : Z) : Prop :=
  In m (map Tenure rs) /\ Forall (fun r => (Tenure r <= m)%Z) rs.

(** The preconditions of the risk score on one record. *)
Definition risk_well_formed (r : CustomerRecord) : Prop :=
  In (ContractType r) contract_types /\
  In (PaymentMethod r) payment_methods /\
  (1 <= SatisfactionScore r)%Q /\ (SatisfactionScore r <= 5)%Q /\
  (0 <= Tenure r)%Z.

(** [0.3*(100 - 100*tenure/max_tenure) + 0.3*(100 - 100*satisfaction/5)
     + 0.2*contract_risk + 0.2*payment_risk] *)
Definition risk_score (max_tenure : Z) (r : CustomerRecord) (cr pr : Q) : Q :=
  ((3 # 10) * (100 - 100 * inject_Z (Tenure r) / inject_Z max_tenure)
   + (3 # 10) * (100 - 100 * SatisfactionScore r / 5)
   + (2 # 10) * cr + (2 # 10) * pr)%Q.

Inductive risk_category : Type := Low | Medium | High.

Definition risk_label (c : risk_category) : string :=
  match c with
  | Low => "Low Risk"
  | Medium => "Medium Risk"
  | High => "High Risk"
  end.

(** The category of a score by the intervals (0,30], (30,60], (60,100]. *)
Definition in_bucket (c : risk_category) (s : Q) : Prop :=
  match c with
  | Low => (0 < s)%Q /\ (s <= 30)%Q
  | Medium => (30 < s)%Q /\ (s <= 60)%Q
  | High => (60 < s)%Q /\ (s <= 100)%Q
  end.

(** The preconditions of the engagement score on one record. *)
Definition engagement_well_formed (r : CustomerRecord) : Prop :=
  In (ContractType r) contract_types /\ (0 <= Tenure r)%Z.

(** The number of the four service fields that are not "No". *)
Definition services_used (r : CustomerRecord) : nat :=
  length (List.filter (fun s => negb (String.eqb s "No"))
            [PhoneService r; InternetService r; StreamingTV r; StreamingMovies r]).

(** [0.4*service_score + 0.3*tenure_score + 0.3*contract_score] *)
Definition engagement_score (max_tenure : Z) (r : CustomerRecord) (cs : Q) : Q :=
  ((4 # 10) * (inject_Z (Z.of_nat (services_used r)) / 4 * 100)
   + (3 # 10) * (inject_Z (Tenure r) / inject_Z max_tenure * 100)
   + (3 # 10) * cs)%Q.





Definition derived_columns : list string :=
  ["CLV"; "ValueSegment"; "ARPU"; "ServiceUsageScore"].

End Spec.

(** ** Row-wise reading of the recommendation rules *)

Definition recommend (r : CustomerRecord) : list RecommendationEngine.Recommendation :=
  ((if String.eqb (ContractType r) "Month-to-Month"
    then [RecommendationEngine.contract_upgrade
            (fltb (Fin 70) (Fin (MonthlyCharges r)))]
    else [])
   ++ (if negb (String.eqb (InternetService r) "No")
       then (if String.eqb (StreamingTV r) "No"
             then [RecommendationEngine.add_streaming_tv] else [])
            ++ (if String.eqb (StreamingMovies r) "No"
                then [RecommendationEngine.add_streaming_movies] else [])
       else [])
   ++ (if fltb (Fin (SatisfactionScore r)) (Fin 3)
       then [RecommendationEngine.satisfaction_review] else []))%list.

(** ** The specification's error kinds

    The code has no exception classes of its own; it raises Python's and
    the libraries'.  An error counts as the specification's
    InvalidStateError when it reports that the model is not trained. *)

Definition InvalidStateError (e : exn) : Prop :=
  match e with
  | NotFittedError _ => True
  | ValueError msg => msg = "Model hasn't been trained yet"
  | _ => False
  end.

(** ** Sample data *)

Module Samples.

Definition customer (id tenure : Z) (contract payment : string)
  (monthly total satisfaction : Q) (tv movies : string) : CustomerRecord :=
  {| CustomerID := id; Gender := "Female"; Age := 40; Tenure := tenure;
     ContractType := contract; MonthlyCharges := monthly;
     TotalCharges := total; InternetService := "DSL"; PhoneService := "Yes";
     StreamingTV := tv; StreamingMovies := movies; PaymentMethod := payment;
     SatisfactionScore := satisfaction; Churn := 0; LastUpdate := 0 |}.

(** Four well-formed customers with distinct total charges. *)
Definition customers : list CustomerRecord :=
  [ customer 1 10 "Two Year" "Mailed check" 50 500 5 "Yes" "Yes";
    customer 2 0 "Month-to-Month" "Electronic check" 70 0 1 "No" "No";
    customer 3 3 "One Year" "Credit card (automatic)" 20 60 (7 # 2) "Yes" "No";
    customer 4 6 "Month-to-Month" "Bank transfer (automatic)" 100 610 4 "No" "Yes" ].

(** The generated data set's payment labels ([utils/seeder.py]) are not
    keys of the payment table. *)
Definition seeded_customers : list CustomerRecord :=
  [ customer 1 10 "Two Year" "Mailed Check" 50 500 5 "Yes" "Yes";
    customer 2 4 "One Year" "Mailed check" 50 200 3 "Yes" "Yes" ].

(** Four new customers, none of whom has been charged yet. *)
Definition new_customers : list CustomerRecord :=
  [ customer 1 0 "Month-to-Month" "Mailed check" 50 0 3 "No" "No";
    customer 2 0 "Month-to-Month" "Mailed check" 60 0 3 "No" "No";
    customer 3 0 "One Year" "Mailed check" 70 0 4 "No" "No";
    customer 4 0 "Two Year" "Mailed check" 80 0 5 "No" "No" ].

(** Two month-to-month customers paying by mailed check. *)
Definition monthly_customers : list CustomerRecord :=
  [ customer 1 2 "Month-to-Month" "Mailed check" 70 140 2 "No" "No";
    customer 2 12 "Month-to-Month" "Mailed check" 90 1000 4 "Yes" "No" ].

(** A contract type as the raw data has it, before the loader's
    standardisation. *)
Definition raw_contract_customers : list CustomerRecord :=
  [ customer 1 5 "Month-to-month" "Mailed check" 50 250 4 "Yes" "No";
    customer 2 8 "Two Year" "Mailed check" 50 400 4 "Yes" "No" ].

(** Stand-ins for the library parts that are taken as given. *)
Definition scaler_fit_transform (s : unit) (data : list (list fval))
  : unit * result (list (list fval)) := (s, Ok data).

Definition processor : DataProcessor unit :=
  DataProcessor_init unit tt (frame_of customers).

(** A frame without total charges. *)
Definition uncharged_frame : DataFrame :=
  [ ("CustomerID", IntCol [1%Z]);
    ("MonthlyCharges", FloatCol [Fin 50]);
    ("Tenure", IntCol [3%Z]) ].

Definition uncharged_processor : DataProcessor unit :=
  DataProcessor_init unit tt uncharged_frame.

Definition scale (data : list (list fval)) : result (list (list fval)) := Ok data.

Definition kmeans (k : Z) (data : list (list fval)) : result (list Z) :=
  Ok (match data with l :: _ => map (fun _ => 0%Z) l | [] => [] end).

Definition tabs (d : DataFrame) (features : list string) : result (list ui_event) :=
  Ok [Tabs ["Segment Overview"; "Detailed Analysis"; "Customer Profiles"]].

(** A forest that fits: it answers every row with the same two
    probabilities and ranks every column alike. *)
Definition split (X : DataFrame) (y : Column)
  : result (DataFrame * DataFrame * Column * Column) := Ok (X, X, y, y).

Definition failing_split (X : DataFrame) (y : Column)
  : result (DataFrame * DataFrame * Column * Column) :=
  Raise (ValueError "The least populated class in y has only 1 member").

Definition fit (m : RandomForestClassifier nat) (X : DataFrame) (y : Column)
  : RandomForestClassifier nat * result unit :=
  ({| n_estimators := n_estimators nat m; max_depth := max_depth nat m;
      estimators_ := Some (length X) |}, Ok tt).

Definition fitted_labels (f : nat) (X : DataFrame) : result Column := Ok (IntCol []).

Definition fitted_proba (f : nat) (X : DataFrame) : result (list (list fval)) :=
  Ok [[Fin (1 # 2); Fin (1 # 2)]].

Definition importances (f : nat) : list fval := replicate f (Fin 0).

Definition metrics (m : RandomForestClassifier nat) (X : DataFrame)
  (y y_test y_pred : Column) (y_prob : list (list fval)) : result unit := Ok tt.

Definition ranking (l : list (string * fval)) : list (string * fval) := l.

(** A frame that has been segmented, and one customer per segment. *)
Definition segmented_frame : DataFrame :=
  setitem (frame_of customers) "Segment" (IntCol [0; 1; 0; 1]%Z).

End Samples.

(** * Properties *)

(** Closed side conditions on sample data. *)
Ltac in_list := solve [simpl; repeat (first [left; reflexivity | right])].
Ltac closed_order := solve [simpl; lia | unfold Qle, Qlt; simpl; lia].
Ltac sample_records :=
  repeat (apply Forall_cons; split; [| try apply Forall_nil]);
  repeat split; first [in_list | closed_order].

(** ** Results *)

Lemma rbind_Ok {A B : Type} (r : result A) (k : A -> result B) (b : B) :
  rbind r k = Ok b -> exists a, r = Ok a /\ k a = Ok b.
Proof. destruct r as [a|e]; simpl; [eauto | discriminate]. Qed.

(** ** Arithmetic on finite values *)

Section Rationals.
Local Open Scope Q_scope.

Lemma Qsign_pos (q : Q) : 0 < q -> Qsign q = Gt.
Proof. intros H. unfold Qsign. by apply Qgt_alt. Qed.

Lemma Qsign_neg (q : Q) : q < 0 -> Qsign q = Lt.
Proof. intros H. unfold Qsign. by apply Qlt_alt. Qed.

Lemma Qsign_zero (q : Q) : q == 0 -> Qsign q = Eq.
Proof. intros H. unfold Qsign. by apply Qeq_alt. Qed.

Lemma ratio_bounds (t m : Q) :
  0 <= t -> t <= m -> 0 < m -> 0 <= t / m /\ t / m <= 1.
Proof.
  intros H0 H1 Hm. split.
  - apply Qle_shift_div_l; lra.
  - apply Qle_shift_div_r; lra.
Qed.

Lemma inject_Z_pos (z : Z) : (0 < z)%Z -> 0 < inject_Z z.
Proof. intros H. change 0 with (inject_Z 0). by rewrite <- Zlt_Qlt. Qed.

Lemma inject_Z_le (a b : Z) : (a <= b)%Z -> inject_Z a <= inject_Z b.
Proof. intros H. by rewrite <- Zle_Qle. Qed.

Lemma Qcompare_inject_Z (a b : Z) : (inject_Z a ?= inject_Z b) = (a ?= b)%Z.
Proof. unfold Qcompare, inject_Z. simpl. by rewrite !Z.mul_1_r. Qed.

Lemma fdiv_finite (x y : Q) : 0 < y -> fdiv (Fin x) (Fin y) = Fin (x / y).
Proof. intros H. unfold fdiv. by rewrite Qsign_pos. Qed.

End Rationals.

(** ** Series *)

Lemma nth_error_lookup {A : Type} (l : list A) (i : nat) : nth_error l i = l !! i.
Proof. revert i. induction l as [|x l IH]; intros [|i]; simpl; auto. Qed.

Lemma zip_with_f_map {A : Type} (f : fval -> fval -> fval) (g h : A -> fval)
  (l : list A) :
  zip_with_f f (map g l) (map h l) = map (fun x => f (g x) (h x)) l.
Proof. induction l as [|x l IH]; simpl; [done | by rewrite IH]. Qed.

Lemma fmax_of_int (a b : Z) :
  fmax_skipna (of_int a) (of_int b) = of_int (Z.max a b).
Proof.
  unfold fmax_skipna, of_int, fltb. rewrite Qcompare_inject_Z.
  unfold Z.max. by destruct (a ?= b)%Z.
Qed.

Lemma fold_max_of_int (l : list Z) (a : Z) :
  fold_left fmax_skipna (map of_int l) (of_int a) = of_int (fold_left Z.max l a).
Proof.
  revert a. induction l as [|x l IH]; intros a; cbn [fold_left map]; [done |].
  by rewrite fmax_of_int, IH.
Qed.

Lemma fold_max_ge (l : list Z) (a : Z) : (a <= fold_left Z.max l a)%Z.
Proof.
  revert a. induction l as [|x l IH]; intros a; simpl; [lia |].
  specialize (IH (Z.max a x)). lia.
Qed.

Lemma fold_max_upper (l : list Z) (a m : Z) :
  (a <= m)%Z -> Forall (fun x => (x <= m)%Z) l -> (fold_left Z.max l a <= m)%Z.
Proof.
  revert a. induction l as [|x l IH]; intros a Ha Hl; simpl; [done |].
  inversion Hl; subst. apply IH; [lia | done].
Qed.

Lemma fold_max_reaches (l : list Z) (a m : Z) :
  In m l -> (m <= fold_left Z.max l a)%Z.
Proof.
  revert a. induction l as [|x l IH]; intros a Hin; simpl; [done |].
  destruct Hin as [->|Hin]; [| by apply IH].
  pose proof (fold_max_ge l (Z.max a m)). lia.
Qed.

(** [Tenure.max()] of an integer column is its largest entry. *)
Lemma series_max_of_int (l : list Z) (m : Z) :
  In m l -> Forall (fun x => (x <= m)%Z) l ->
  series_max (map of_int l) = of_int m.
Proof.
  intros Hin Hle. unfold series_max. destruct l as [|x l]; [done |].
  cbn [fold_left map fmax_skipna of_int]. change (Fin (inject_Z x)) with (of_int x).
  rewrite fold_max_of_int. f_equal.
  inversion Hle; subst. apply Z.le_antisymm.
  - by apply fold_max_upper.
  - destruct Hin as [->|Hin]; [apply fold_max_ge | by apply fold_max_reaches].
Qed.

Lemma is_max_tenure_series (rs : list CustomerRecord) (m : Z) :
  Spec.is_max_tenure rs m ->
  series_max (map of_int (map Tenure rs)) = of_int m.
Proof.
  intros [Hin Hle]. apply series_max_of_int; [done |].
  by apply Forall_map.
Qed.

(** ** Risk score *)

Lemma calculate_risk_score_rows (rs : list CustomerRecord) :
  RiskScorer.calculate_risk_score (frame_of rs)
  = Ok (map (risk_row (series_max (map of_int (map Tenure rs)))) rs).
Proof.
  unfold RiskScorer.calculate_risk_score, frame_of, RiskScorer.scale. cbn.
  f_equal. rewrite !map_map.
  rewrite (zip_with_f_map fadd _ _ rs).
  rewrite (zip_with_f_map fadd _ _ rs).
  rewrite (zip_with_f_map fadd _ _ rs).
  reflexivity.
Qed.

Lemma contract_risk_lookup (c : string) :
  In c Spec.contract_types ->
  exists v, map_value RiskScorer.contract_risk_table c = Fin v /\ Spec.contract_risk c v.
Proof.
  intros [<-|[<-|[<-|[]]]]; eexists; (split; [vm_compute; reflexivity | constructor]).
Qed.

Lemma payment_risk_lookup (p : string) :
  In p Spec.payment_methods ->
  exists v, map_value RiskScorer.payment_risk_table p = Fin v /\ Spec.payment_risk p v.
Proof.
  intros [<-|[<-|[<-|[<-|[]]]]]; eexists; (split; [vm_compute; reflexivity | constructor]).
Qed.

Lemma contract_risk_range (c : string) (v : Q) :
  Spec.contract_risk c v -> (25 <= v)%Q /\ (v <= 100)%Q.
Proof. intros []; split; by vm_compute. Qed.

Lemma payment_risk_range (p : string) (v : Q) :
  Spec.payment_risk p v -> (40 <= v)%Q /\ (v <= 80)%Q.
Proof. intros []; split; by vm_compute. Qed.

(** One well-formed record: the value computed is the formula's, and it
    lies between 13 and 90. *)
Lemma risk_row_well_formed (m : Z) (r : CustomerRecord) :
  (0 < m)%Z -> (Tenure r <= m)%Z -> Spec.risk_well_formed r ->
  exists q cr pr,
    risk_row (of_int m) r = Fin q /\
    Spec.contract_risk (ContractType r) cr /\
    Spec.payment_risk (PaymentMethod r) pr /\
    (q == Spec.risk_score m r cr pr)%Q /\ (13 <= q)%Q /\ (q <= 90)%Q.
Proof.
  intros Hm Hle (Hc & Hp & Hs1 & Hs5 & Ht).
  destruct (contract_risk_lookup _ Hc) as (cr & Ecr & Scr).
  destruct (payment_risk_lookup _ Hp) as (pr & Epr & Spr).
  pose proof (inject_Z_pos m Hm) as Hmq.
  pose proof (ratio_bounds (inject_Z (Tenure r)) (inject_Z m)
                (inject_Z_le 0 _ Ht) (inject_Z_le _ _ Hle) Hmq) as [Hr0 Hr1].
  pose proof (contract_risk_range _ _ Scr) as [Hc0 Hc1].
  pose proof (payment_risk_range _ _ Spr) as [Hp0 Hp1].
  unfold risk_row, RiskScorer.risk_of_ratio, of_int.
  rewrite Ecr, Epr, (fdiv_finite _ _ Hmq), (fdiv_finite _ 5) by reflexivity.
  cbn [fadd fsub fmul fneg RiskScorer.hundred RiskScorer.w_tenure
       RiskScorer.w_satisfaction RiskScorer.w_contract RiskScorer.w_payment].
  eexists _, cr, pr. split; [reflexivity |]. split; [done |]. split; [done |].
  unfold Spec.risk_score.
  set (x := (inject_Z (Tenure r) / inject_Z m)%Q) in *.
  assert (100 * inject_Z (Tenure r) / inject_Z m == 100 * x)%Q as ->.
  { unfold x. field. lra. }
  split; [field |].
  clearbody x. unfold Qdiv. change (/ 5)%Q with (1 # 5)%Q. split; lra.
Qed.

(** On well-formed data every score is the formula's value, between 13
    and 90. *)
Lemma calculate_risk_score_well_formed (rs : list CustomerRecord) (m : Z) :
  Forall Spec.risk_well_formed rs ->
  Spec.is_max_tenure rs m ->
  (0 < m)%Z ->
  exists scores,
    RiskScorer.calculate_risk_score (frame_of rs) = Ok scores /\
    Forall2 (fun r s =>
               exists q cr pr,
                 s = Fin q /\
                 Spec.contract_risk (ContractType r) cr /\
                 Spec.payment_risk (PaymentMethod r) pr /\
                 (q == Spec.risk_score m r cr pr)%Q /\
                 (13 <= q)%Q /\ (q <= 90)%Q) rs scores.
Proof.
  intros Hwf Hmax Hm. eexists. split; [apply calculate_risk_score_rows |].
  rewrite (is_max_tenure_series rs m Hmax).
  destruct Hmax as [_ Hle].
  apply Forall2_fmap_r, Forall_Forall2_diag.
  rewrite Forall_forall in Hwf, Hle. apply Forall_forall. intros r Hr.
  apply (risk_row_well_formed m r Hm (Hle r Hr) (Hwf r Hr)).
Qed.

(** C1. On a data set whose contract types and payment methods are those
    of the two lookup tables, whose satisfaction scores lie in [1,5],
    whose tenures are not negative and whose largest tenure [m] is
    positive, [calculate_risk_score] returns for each record the weighted
    sum of the specification's formula, a value within [0,100]. *)
Theorem calculate_risk_score_formula_range (rs : list CustomerRecord) (m : Z) :
  Forall Spec.risk_well_formed rs ->
  Spec.is_max_tenure rs m ->
  (0 < m)%Z ->
  exists scores,
    RiskScorer.calculate_risk_score (frame_of rs) = Ok scores /\
    Forall2 (fun r s =>
               exists q cr pr,
                 s = Fin q /\
                 Spec.contract_risk (ContractType r) cr /\
                 Spec.payment_risk (PaymentMethod r) pr /\
                 (q == Spec.risk_score m r cr pr)%Q /\
                 (0 <= q)%Q /\ (q <= 100)%Q) rs scores.
Proof.
  intros Hwf Hmax Hm.
  destruct (calculate_risk_score_well_formed rs m Hwf Hmax Hm) as (scores & E & Hall).
  exists scores. split; [exact E |].
  eapply Forall2_impl; [exact Hall |].
  intros r s (q & cr & pr & -> & Hc & Hp & Hq & H13 & H90).
  exists q, cr, pr. repeat split; try done; lra.
Qed.

(** A sample of the theorem: the four sample customers, largest tenure 10. *)
Lemma calculate_risk_score_formula_range_sample :
  exists scores,
    RiskScorer.calculate_risk_score (frame_of Samples.customers) = Ok scores /\
    Forall2 (fun r s =>
               exists q cr pr,
                 s = Fin q /\
                 Spec.contract_risk (ContractType r) cr /\
                 Spec.payment_risk (PaymentMethod r) pr /\
                 (q == Spec.risk_score 10 r cr pr)%Q /\
                 (0 <= q)%Q /\ (q <= 100)%Q) Samples.customers scores.
Proof.
  apply (calculate_risk_score_formula_range Samples.customers 10).
  - sample_records.
  - split; [in_list | sample_records].
  - lia.
Defined.

(** ** Values outside the lookup tables *)

Lemma contract_risk_unknown (c : string) :
  ~ In c Spec.contract_types -> map_value RiskScorer.contract_risk_table c = NaN.
Proof.
  intros H. unfold map_value, RiskScorer.contract_risk_table.
  rewrite !lookup_insert_ne, lookup_singleton_ne; [done | ..];
    intros <-; apply H; simpl; auto.
Qed.

Lemma payment_risk_unknown (p : string) :
  ~ In p Spec.payment_methods -> map_value RiskScorer.payment_risk_table p = NaN.
Proof.
  intros H. unfold map_value, RiskScorer.payment_risk_table.
  rewrite !lookup_insert_ne, lookup_singleton_ne; [done | ..];
    intros <-; apply H; simpl; auto 6.
Qed.

Lemma fadd_nan_r (a : fval) : fadd a NaN = NaN.
Proof. by destruct a. Qed.

Lemma risk_row_unknown (d : fval) (r : CustomerRecord) :
  ~ In (PaymentMethod r) Spec.payment_methods \/
  ~ In (ContractType r) Spec.contract_types ->
  risk_row d r = NaN.
Proof.
  intros [H|H]; unfold risk_row.
  - rewrite (payment_risk_unknown _ H). cbn [fmul]. apply fadd_nan_r.
  - rewrite (contract_risk_unknown _ H). cbn [fmul]. by rewrite fadd_nan_r.
Qed.

Lemma nan_not_in_range (lo hi : Q) : ~ in_range lo hi NaN.
Proof. intros (q & E & _). discriminate. Qed.

(** C10. [calculate_risk_score] raises nothing on a data set of the
    schema, whatever its values; the entry of a record whose payment
    method is no key of the payment table, or whose contract type is no
    key of the contract table, is NaN, which is not a value of [0,100]. *)
Theorem calculate_risk_score_unknown_category (rs : list CustomerRecord) :
  exists scores,
    RiskScorer.calculate_risk_score (frame_of rs) = Ok scores /\
    length scores = length rs /\
    forall (i : nat) (r : CustomerRecord),
      rs !! i = Some r ->
      ~ In (PaymentMethod r) Spec.payment_methods \/
      ~ In (ContractType r) Spec.contract_types ->
      scores !! i = Some NaN /\ ~ in_range 0 100 NaN.
Proof.
  eexists. split; [apply calculate_risk_score_rows |].
  split; [by rewrite length_map |].
  intros i r Hi Hr. split; [| apply nan_not_in_range].
  rewrite list_lookup_fmap, Hi. simpl. f_equal. by apply risk_row_unknown.
Qed.

(** The first customer of the generated data pays by "Mailed Check", which
    the payment table does not hold. *)
Lemma calculate_risk_score_unknown_category_sample :
  exists scores,
    RiskScorer.calculate_risk_score (frame_of Samples.seeded_customers) = Ok scores /\
    scores !! 0%nat = Some NaN /\ ~ in_range 0 100 NaN.
Proof.
  destruct (calculate_risk_score_unknown_category Samples.seeded_customers)
    as (scores & E & _ & H).
  exists scores. split; [exact E |].
  apply (H 0%nat (Samples.customer 1 10 "Two Year" "Mailed Check" 50 500 5 "Yes" "Yes")).
  - reflexivity.
  - left. simpl. intros [?|[?|[?|[?|[]]]]]; discriminate.
Defined.

(** ** Risk categories *)

Lemma fltb_Fin_true (a b : Q) : (a < b)%Q -> fltb (Fin a) (Fin b) = true.
Proof. intros H. unfold fltb. by rewrite (proj1 (Qlt_alt a b) H). Qed.

Lemma fltb_Fin_false (a b : Q) : (b <= a)%Q -> fltb (Fin a) (Fin b) = false.
Proof.
  intros H. unfold fltb. destruct (Qcompare_spec a b) as [?|Hlt|?]; try done.
  exfalso. lra.
Qed.

(** The bins of [pd.cut] on the edges 0, 30, 60, 100. *)
Lemma risk_cut_low (q : Q) :
  (0 < q)%Q -> (q <= 30)%Q ->
  bins_to_cuts RiskCategories.risk_bins false (Fin q) = Some 0%nat.
Proof.
  intros H0 H1. unfold bins_to_cuts, RiskCategories.risk_bins.
  cbn [searchsorted_left andb is_nan orb length].
  by rewrite (fltb_Fin_true 0 q), (fltb_Fin_false 30 q).
Qed.

Lemma risk_cut_medium (q : Q) :
  (30 < q)%Q -> (q <= 60)%Q ->
  bins_to_cuts RiskCategories.risk_bins false (Fin q) = Some 1%nat.
Proof.
  intros H0 H1. unfold bins_to_cuts, RiskCategories.risk_bins.
  cbn [searchsorted_left andb is_nan orb length].
  rewrite (fltb_Fin_true 0 q), (fltb_Fin_true 30 q), (fltb_Fin_false 60 q);
    [done | lra..].
Qed.

Lemma risk_cut_high (q : Q) :
  (60 < q)%Q -> (q <= 100)%Q ->
  bins_to_cuts RiskCategories.risk_bins false (Fin q) = Some 2%nat.
Proof.
  intros H0 H1. unfold bins_to_cuts, RiskCategories.risk_bins.
  cbn [searchsorted_left andb is_nan orb length].
  rewrite (fltb_Fin_true 0 q), (fltb_Fin_true 30 q), (fltb_Fin_true 60 q),
    (fltb_Fin_false 100 q); [done | lra..].
Qed.

(** Nothing at or below the lowest edge is binned. *)
Lemma risk_cut_lowest (q : Q) :
  (q <= 0)%Q -> bins_to_cuts RiskCategories.risk_bins false (Fin q) = None.
Proof.
  intros H. unfold bins_to_cuts, RiskCategories.risk_bins.
  cbn [searchsorted_left andb is_nan orb length].
  by rewrite (fltb_Fin_false 0 q).
Qed.

Lemma risk_cut_bucket (q : Q) :
  (0 < q)%Q -> (q <= 100)%Q ->
  exists c k,
    Spec.in_bucket c q /\
    bins_to_cuts RiskCategories.risk_bins false (Fin q) = Some k /\
    nth_error RiskCategories.risk_labels k = Some (Spec.risk_label c).
Proof.
  intros H0 H100.
  destruct (Qlt_le_dec 30 q) as [H30|H30]; [destruct (Qlt_le_dec 60 q) as [H60|H60] |].
  - exists Spec.High, 2%nat. by rewrite risk_cut_high.
  - exists Spec.Medium, 1%nat. by rewrite risk_cut_medium.
  - exists Spec.Low, 0%nat. by rewrite risk_cut_low.
Qed.

Lemma get_risk_categories_cut (df : DataFrame) (scores : list fval) :
  RiskScorer.calculate_risk_score df = Ok scores ->
  RiskCategories.get_risk_categories df
  = Ok (CatCol RiskCategories.risk_labels
          (map (bins_to_cuts RiskCategories.risk_bins false) scores)).
Proof. intros H. unfold RiskCategories.get_risk_categories. by rewrite H. Qed.

(** C2.  On a data set that meets the preconditions of the risk score,
    [get_risk_categories] gives every record the category of the score
    that [calculate_risk_score] computed for it, by the intervals (0,30],
    (30,60], (60,100]: Low, Medium, High.  A record of such a data set
    whose score is exactly 0 is assigned Low; every score of such a data
    set is at least 13, so this last clause concerns no record. *)
Theorem get_risk_categories_buckets (rs : list CustomerRecord) (m : Z) :
  Forall Spec.risk_well_formed rs ->
  Spec.is_max_tenure rs m ->
  (0 < m)%Z ->
  exists scores cats,
    RiskScorer.calculate_risk_score (frame_of rs) = Ok scores /\
    RiskCategories.get_risk_categories (frame_of rs) = Ok cats /\
    (forall i : nat,
        (i < length rs)%nat ->
        exists q c,
          scores !! i = Some (Fin q) /\
          Spec.in_bucket c q /\
          category_at cats i = Some (Some (Spec.risk_label c))) /\
    (forall (i : nat) (q : Q),
        scores !! i = Some (Fin q) ->
        (q == 0)%Q ->
        category_at cats i = Some (Some (Spec.risk_label Spec.Low))).
Proof.
  intros Hwf Hmax Hm.
  destruct (calculate_risk_score_well_formed rs m Hwf Hmax Hm)
    as (scores & E & Hall).
  exists scores. eexists. split; [exact E |].
  split; [by apply get_risk_categories_cut |]. split.
  - intros i Hi.
    destruct (lookup_lt_is_Some_2 rs i Hi) as [r Hr].
    destruct (Forall2_lookup_l _ _ _ _ _ Hall Hr)
      as (s & Hs & q & cr & pr & -> & Hcr & Hpr & Hq & H13 & H90).
    assert (0 < q)%Q as Hpos by lra.
    assert (q <= 100)%Q as H100 by lra.
    destruct (risk_cut_bucket q Hpos H100) as (c & k & Hb & Hk & Hl).
    exists q, c. split; [done |]. split; [done |].
    unfold category_at. rewrite nth_error_lookup, list_lookup_fmap, Hs.
    cbn [fmap option_fmap option_map]. by rewrite Hk, Hl.
  - intros i q Hs H0. exfalso.
    destruct (Forall2_lookup_r _ _ _ _ _ Hall Hs)
      as (r & Hr & q' & cr & pr & Hq' & Hcr & Hpr & Hq & H13 & H90).
    injection Hq' as ->. lra.
Qed.

(** The theorem on the sample customers: their categories are Low, High,
    Medium and Medium. *)
Lemma get_risk_categories_buckets_sample :
  exists scores cats,
    RiskScorer.calculate_risk_score (frame_of Samples.customers) = Ok scores /\
    RiskCategories.get_risk_categories (frame_of Samples.customers) = Ok cats /\
    (forall i : nat,
        (i < length Samples.customers)%nat ->
        exists q c,
          scores !! i = Some (Fin q) /\
          Spec.in_bucket c q /\
          category_at cats i = Some (Some (Spec.risk_label c))) /\
    (forall (i : nat) (q : Q),
        scores !! i = Some (Fin q) ->
        (q == 0)%Q ->
        category_at cats i = Some (Some (Spec.risk_label Spec.Low))).
Proof.
  apply (get_risk_categories_buckets Samples.customers 10%Z).
  - sample_records.
  - split; [in_list | sample_records].
  - lia.
Defined.

(** ** Frames *)

Lemma lookup_col_setitem_eq (df : DataFrame) (name : string) (c : Column) :
  lookup_col name (setitem df name c) = Some c.
Proof.
  induction df as [|[n c0] df IH]; simpl.
  - by rewrite String.eqb_refl.
  - destruct (String.eqb n name) eqn:E; simpl; by rewrite E.
Qed.

Lemma lookup_col_setitem_ne (df : DataFrame) (name other : string) (c : Column) :
  other <> name -> lookup_col other (setitem df name c) = lookup_col other df.
Proof.
  intros Hne. induction df as [|[n c0] df IH]; simpl.
  - destruct (String.eqb_spec name other); congruence.
  - destruct (String.eqb_spec n name) as [->|Hn]; simpl.
    + destruct (String.eqb_spec name other); congruence.
    + by rewrite IH.
Qed.

Lemma base_not_derived (c : string) :
  In c base_columns -> ~ In c Spec.derived_columns.
Proof.
  unfold base_columns, Spec.derived_columns. simpl.
  intros H [E|[E|[E|[E|[]]]]]; subst c;
    repeat (destruct H as [H|H]; [discriminate |]); done.
Qed.

(** ** Basic CLV *)

(** C6. For every data set, [calculate_basic_clv] returns and stores as
    column CLV, for each record, the product of its monthly charges and
    its tenure. *)
Theorem calculate_basic_clv_product (rs : list CustomerRecord) :
  exists clv,
    CLVAnalyzer.calculate_basic_clv (frame_of rs)
    = (setitem (frame_of rs) "CLV" (FloatCol clv), Ok clv) /\
    getitem (CLVAnalyzer.calculate_basic_clv (frame_of rs)).1 "CLV"
    = Ok (FloatCol clv) /\
    Forall2 (fun r v => v = Fin (MonthlyCharges r * inject_Z (Tenure r))%Q) rs clv.
Proof.
  exists (map (fun r => Fin (MonthlyCharges r * inject_Z (Tenure r))%Q) rs).
  assert (CLVAnalyzer.calculate_basic_clv (frame_of rs)
          = (setitem (frame_of rs) "CLV"
               (FloatCol (map (fun r => Fin (MonthlyCharges r * inject_Z (Tenure r))%Q) rs)),
             Ok (map (fun r => Fin (MonthlyCharges r * inject_Z (Tenure r))%Q) rs))) as E.
  { unfold CLVAnalyzer.calculate_basic_clv, frame_of.
    cbn [getitem lookup_col String.eqb Ascii.eqb Bool.eqb rbind to_float].
    rewrite map_map, (zip_with_f_map fmul _ _ rs). reflexivity. }
  split; [exact E |]. split.
  - rewrite E. unfold getitem. cbn [fst]. by rewrite lookup_col_setitem_eq.
  - apply Forall2_fmap_r, Forall_Forall2_diag, Forall_forall. done.
Qed.

(** ** Engagement score *)

Lemma zip_with_map {A B C D : Type} (h : B -> C -> D) (f : A -> B) (g : A -> C)
  (l : list A) :
  zip_with h (map f l) (map g l) = map (fun x => h (f x) (g x)) l.
Proof. induction l as [|x l IH]; simpl; [done | by rewrite IH]. Qed.

Lemma replicate_length_map {A B C : Type} (f : A -> B) (l : list A) (c : C) :
  replicate (length (map f l)) c = map (fun _ => c) l.
Proof. induction l as [|x l IH]; simpl; [done | by rewrite IH]. Qed.

Lemma count_services_rows (rs : list CustomerRecord) :
  count_services (frame_of rs) = Ok (map service_count rs).
Proof.
  unfold count_services, service_columns, frame_of.
  cbn [getitems getitem lookup_col String.eqb Ascii.eqb Bool.eqb rbind map ne_No
       col_length fold_left].
  f_equal. rewrite replicate_length_map. unfold add_flags.
  rewrite !map_map. rewrite !zip_with_map.
  apply map_ext. intros r. unfold service_count.
  destruct (String.eqb (PhoneService r) "No"),
    (String.eqb (InternetService r) "No"),
    (String.eqb (StreamingTV r) "No"),
    (String.eqb (StreamingMovies r) "No"); reflexivity.
Qed.

Lemma services_used_count (r : CustomerRecord) :
  Z.of_nat (Spec.services_used r) = service_count r.
Proof.
  unfold Spec.services_used, service_count. cbn [List.filter].
  destruct (String.eqb (PhoneService r) "No"),
    (String.eqb (InternetService r) "No"),
    (String.eqb (StreamingTV r) "No"),
    (String.eqb (StreamingMovies r) "No"); reflexivity.
Qed.

Lemma service_count_range (r : CustomerRecord) :
  (0 <= service_count r <= 4)%Z.
Proof.
  unfold service_count.
  destruct (String.eqb (PhoneService r) "No"),
    (String.eqb (InternetService r) "No"),
    (String.eqb (StreamingTV r) "No"),
    (String.eqb (StreamingMovies r) "No"); lia.
Qed.

Lemma calculate_engagement_score_rows (rs : list CustomerRecord) :
  EngagementAnalyzer.calculate_engagement_score (frame_of rs)
  = Ok (map (engagement_row (series_max (map of_int (map Tenure rs)))) rs).
Proof.
  unfold EngagementAnalyzer.calculate_engagement_score.
  rewrite count_services_rows. unfold frame_of.
  cbn [getitem lookup_col String.eqb Ascii.eqb Bool.eqb rbind to_float series_map
       service_columns length].
  f_equal. rewrite !map_map.
  rewrite (zip_with_f_map fadd _ _ rs), (zip_with_f_map fadd _ _ rs).
  reflexivity.
Qed.

Lemma contract_score_lookup (c : string) :
  In c Spec.contract_types ->
  exists v, map_value EngagementAnalyzer.contract_score_table c = Fin v /\
            Spec.contract_score c v.
Proof.
  intros [<-|[<-|[<-|[]]]]; eexists; (split; [vm_compute; reflexivity | constructor]).
Qed.

Lemma contract_score_range (c : string) (v : Q) :
  Spec.contract_score c v -> (33 <= v)%Q /\ (v <= 100)%Q.
Proof. intros []; split; by vm_compute. Qed.

Lemma engagement_row_well_formed (m : Z) (r : CustomerRecord) :
  (0 < m)%Z -> (Tenure r <= m)%Z -> Spec.engagement_well_formed r ->
  exists q cs,
    engagement_row (of_int m) r = Fin q /\
    Spec.contract_score (ContractType r) cs /\
    (q == Spec.engagement_score m r cs)%Q /\ (0 <= q)%Q /\ (q <= 100)%Q.
Proof.
  intros Hm Hle (Hc & Ht).
  destruct (contract_score_lookup _ Hc) as (cs & Ecs & Scs).
  pose proof (inject_Z_pos m Hm) as Hmq.
  pose proof (ratio_bounds (inject_Z (Tenure r)) (inject_Z m)
                (inject_Z_le 0 _ Ht) (inject_Z_le _ _ Hle) Hmq) as [Hr0 Hr1].
  pose proof (contract_score_range _ _ Scs) as [Hc0 Hc1].
  pose proof (service_count_range r) as [Hs0 Hs4].
  apply inject_Z_le in Hs0, Hs4.
  unfold engagement_row, of_int.
  rewrite Ecs, (fdiv_finite _ _ Hmq), (fdiv_finite _ (inject_Z 4)) by reflexivity.
  cbn [fadd fmul].
  eexists _, cs. split; [reflexivity |]. split; [done |].
  unfold Spec.engagement_score. rewrite services_used_count.
  set (x := (inject_Z (Tenure r) / inject_Z m)%Q) in *.
  set (s := inject_Z (service_count r)) in *.
  clearbody x s. unfold Qdiv.
  change (/ inject_Z 4)%Q with (1 # 4)%Q. change (/ 4)%Q with (1 # 4)%Q.
  change (inject_Z 0) with 0%Q in Hs0. change (inject_Z 4) with 4%Q in Hs4.
  split; [ring | split; lra].
Qed.

(** C8. On a data set whose contract types are those of the lookup
    table, whose tenures are not negative and whose largest tenure [m] is
    positive, the engagement score of each record is the weighted sum of
    the specification's formula, a value within [0,100]. *)
Theorem calculate_engagement_score_formula_range (rs : list CustomerRecord) (m : Z) :
  Forall Spec.engagement_well_formed rs ->
  Spec.is_max_tenure rs m ->
  (0 < m)%Z ->
  exists scores,
    EngagementAnalyzer.calculate_engagement_score (frame_of rs) = Ok scores /\
    Forall2 (fun r s =>
               exists q cs,
                 s = Fin q /\
                 Spec.contract_score (ContractType r) cs /\
                 (q == Spec.engagement_score m r cs)%Q /\
                 (0 <= q)%Q /\ (q <= 100)%Q) rs scores.
Proof.
  intros Hwf Hmax Hm. eexists. split; [apply calculate_engagement_score_rows |].
  rewrite (is_max_tenure_series rs m Hmax).
  destruct Hmax as [_ Hle].
  apply Forall2_fmap_r, Forall_Forall2_diag.
  rewrite Forall_forall in Hwf, Hle. apply Forall_forall. intros r Hr.
  apply (engagement_row_well_formed m r Hm (Hle r Hr) (Hwf r Hr)).
Qed.

Lemma calculate_engagement_score_formula_range_sample :
  exists scores,
    EngagementAnalyzer.calculate_engagement_score (frame_of Samples.customers)
    = Ok scores /\
    Forall2 (fun r s =>
               exists q cs,
                 s = Fin q /\
                 Spec.contract_score (ContractType r) cs /\
                 (q == Spec.engagement_score 10 r cs)%Q /\
                 (0 <= q)%Q /\ (q <= 100)%Q) Samples.customers scores.
Proof.
  apply (calculate_engagement_score_formula_range Samples.customers 10%Z).
  - sample_records.
  - split; [in_list | sample_records].
  - lia.
Defined.

(** ** Derived columns leave the base fields alone *)

Lemma calculate_basic_clv_frame (d : DataFrame) (c : string) :
  c <> "CLV" ->
  lookup_col c (CLVAnalyzer.calculate_basic_clv d).1 = lookup_col c d.
Proof.
  intros Hc. unfold CLVAnalyzer.calculate_basic_clv.
  destruct (rbind _ _) as [clv|e]; cbn [fst]; [| done].
  by apply lookup_col_setitem_ne.
Qed.

Lemma segment_value_analysis_frame (d : DataFrame) (c : string) :
  c <> "ValueSegment" ->
  lookup_col c (CLVAnalyzer.segment_value_analysis d).1 = lookup_col c d.
Proof.
  intros Hc. unfold CLVAnalyzer.segment_value_analysis.
  destruct (rbind _ _) as [seg|e]; cbn [fst]; [| done].
  by apply lookup_col_setitem_ne.
Qed.

Lemma calculate_customer_metrics_frame (S : Type) (p : DataProcessor S) (c : string) :
  c <> "CLV" -> c <> "ARPU" -> c <> "ServiceUsageScore" ->
  lookup_col c (df (calculate_customer_metrics S p).1) = lookup_col c (df p).
Proof.
  intros H1 H2 H3. unfold calculate_customer_metrics.
  destruct (rbind _ _) as [clv|e]; cbn [fst]; [| done].
  destruct (rbind _ _) as [arpu|e]; cbn [fst with_df df].
  - destruct (count_services _) as [score|e]; cbn [fst with_df df];
      rewrite ?lookup_col_setitem_ne; done.
  - by rewrite lookup_col_setitem_ne.
Qed.

(** C9. Each operation that adds a derived column (the basic CLV, the
    value segments, the customer metrics CLV, ARPU and ServiceUsageScore)
    leaves every base column of the frame as it was, for every record,
    whether the operation returns or raises. *)
Theorem derived_columns_keep_base_fields (d : DataFrame) (c : string) :
  In c base_columns ->
  lookup_col c (CLVAnalyzer.calculate_basic_clv d).1 = lookup_col c d /\
  lookup_col c (CLVAnalyzer.segment_value_analysis d).1 = lookup_col c d /\
  forall (S : Type) (p : DataProcessor S),
    df p = d ->
    lookup_col c (df (calculate_customer_metrics S p).1) = lookup_col c d.
Proof.
  intros Hc. pose proof (base_not_derived c Hc) as Hn.
  assert (c <> "CLV" /\ c <> "ValueSegment" /\ c <> "ARPU" /\ c <> "ServiceUsageScore")
    as (H1 & H2 & H3 & H4).
  { repeat split; intros ->; apply Hn; simpl; auto. }
  split; [by apply calculate_basic_clv_frame |].
  split; [by apply segment_value_analysis_frame |].
  intros S p <-. by apply calculate_customer_metrics_frame.
Qed.

(** The tenures of the sample customers after each of the operations. *)
Lemma derived_columns_keep_base_fields_sample :
  lookup_col "Tenure" (CLVAnalyzer.calculate_basic_clv (frame_of Samples.customers)).1
  = Some (IntCol [10; 0; 3; 6]%Z) /\
  lookup_col "Tenure" (CLVAnalyzer.segment_value_analysis (frame_of Samples.customers)).1
  = Some (IntCol [10; 0; 3; 6]%Z) /\
  lookup_col "Tenure" (df (calculate_customer_metrics unit Samples.processor).1)
  = Some (IntCol [10; 0; 3; 6]%Z).
Proof.
  destruct (derived_columns_keep_base_fields (frame_of Samples.customers) "Tenure")
    as (H1 & H2 & H3).
  - simpl. auto.
  - split; [exact H1 |]. split; [exact H2 |].
    exact (H3 unit Samples.processor eq_refl).
Defined.

(** ** Churn predictor *)

(** C3. On a predictor just constructed, on which [train] was never
    called, [predict] fails for every input and [get_top_features] fails
    for every count, each with an error that reports the untrained state:
    the library's [NotFittedError] and the [ValueError] of the code. *)
Theorem untrained_predictor_fails
  (Fitted : Type)
  (fitted_predict_proba : Fitted -> DataFrame -> result (list (list fval)))
  (n_estimators max_depth : Z) (X : DataFrame) (n : Z) :
  let p := ChurnPredictor_init Fitted n_estimators max_depth in
  (exists e, predict Fitted fitted_predict_proba p X = Raise e /\
             e = not_fitted /\ InvalidStateError e) /\
  (exists e, get_top_features Fitted p n = Raise e /\
             e = ValueError "Model hasn't been trained yet" /\
             InvalidStateError e).
Proof.
  intros p. split; eexists; (split; [reflexivity |]); split; reflexivity || exact I.
Qed.

(** ** Segmentation page *)

(** C5, as the code has it.  With fewer than two selected features the
    page raises nothing: it shows a warning and returns, and the frame is
    left as it was, so no segment ids are assigned. *)
Theorem segmentation_needs_two_features
  (standard_scale : list (list fval) -> result (list (list fval)))
  (KMeans_fit_predict : Z -> list (list fval) -> result (list Z))
  (render_tabs : DataFrame -> list string -> result (list ui_event))
  (d : DataFrame) (n_clusters : Z) (selected_features : list string) :
  (length selected_features < 2)%nat ->
  exists shown,
    render_segmentation_page standard_scale KMeans_fit_predict render_tabs
      d n_clusters selected_features
    = (d, shown, Ok tt) /\
    last shown = Some (Warning "Please select at least 2 features for segmentation").
Proof.
  intros H. unfold render_segmentation_page.
  destruct (Nat.ltb_spec (length selected_features) 2) as [_|Hge]; [| lia].
  eexists. split; reflexivity.
Qed.

Lemma segmentation_needs_two_features_sample :
  exists shown,
    render_segmentation_page Samples.scale Samples.kmeans Samples.tabs
      (frame_of Samples.customers) 3 ["Tenure"]
    = (frame_of Samples.customers, shown, Ok tt) /\
    last shown = Some (Warning "Please select at least 2 features for segmentation").
Proof.
  apply (segmentation_needs_two_features Samples.scale Samples.kmeans Samples.tabs
           (frame_of Samples.customers) 3 ["Tenure"]).
  simpl. lia.
Defined.

(** One selected feature: the page returns, no error is raised. *)
Lemma one_feature_raises_nothing :
  (render_segmentation_page Samples.scale Samples.kmeans Samples.tabs
     (frame_of Samples.customers) 3 ["Tenure"]).2 = Ok tt /\
  ~ exists e,
      (render_segmentation_page Samples.scale Samples.kmeans Samples.tabs
         (frame_of Samples.customers) 3 ["Tenure"]).2 = Raise e.
Proof.
  split; [reflexivity |]. intros [e He]. discriminate He.
Qed.

(** ** Value segments *)

#[local] Instance Qle_transitive : Transitive Qle.
Proof. intros x y z. apply Qle_trans. Qed.

#[local] Instance Qle_total : Total Qle.
Proof. intros x y. destruct (Qlt_le_dec x y) as [H|H]; [left | right]; lra. Qed.

Lemma StronglySorted_head_le (a x : Q) (l : list Q) :
  StronglySorted Qle (a :: l) -> x ∈ a :: l -> (a <= x)%Q.
Proof.
  intros Hs Hx. inversion Hs as [|? ? _ Hall]; subst.
  apply elem_of_cons in Hx as [->|Hx]; [lra |].
  rewrite Forall_forall in Hall. by apply Hall.
Qed.

Lemma StronglySorted_le_last (x : Q) (l : list Q) :
  StronglySorted Qle l -> x ∈ l -> (x <= nth (length l - 1) l 0)%Q.
Proof.
  revert x. induction l as [|a l IH]; intros x Hs Hx; [by apply elem_of_nil in Hx |].
  inversion Hs as [|? ? Hs' Hall]; subst.
  destruct l as [|b l].
  - apply elem_of_cons in Hx as [->|Hx]; [simpl; lra | by apply elem_of_nil in Hx].
  - replace (nth (length (a :: b :: l) - 1) (a :: b :: l) 0%Q)
      with (nth (length (b :: l) - 1) (b :: l) 0%Q)
      by (simpl; by rewrite Nat.sub_0_r).
    apply elem_of_cons in Hx as [->|Hx]; [| by apply IH].
    apply Qle_trans with b.
    + rewrite Forall_forall in Hall. apply Hall. left.
    + apply IH; [done | left].
Qed.

Lemma quantile_linear_lowest (sorted : list Q) :
  (quantile_linear sorted 0 4 == nth 0 sorted 0)%Q.
Proof.
  unfold quantile_linear. rewrite Nat.mul_0_r.
  change (0 / 4)%nat with 0%nat. change (0 mod 4)%nat with 0%nat.
  change (Z.of_nat 0 # Pos.of_nat 4)%Q with (0 # 4)%Q.
  assert (0 # 4 == 0)%Q as -> by reflexivity. ring.
Qed.

Lemma quantile_linear_highest (sorted : list Q) :
  (quantile_linear sorted 4 4 == nth (length sorted - 1) sorted 0)%Q.
Proof.
  unfold quantile_linear.
  rewrite Nat.div_mul by done. rewrite Nat.Div0.mod_mul.
  change (Z.of_nat 0 # Pos.of_nat 4)%Q with (0 # 4)%Q.
  assert (0 # 4 == 0)%Q as -> by reflexivity. ring.
Qed.

(** The outer edges are the least and the largest value. *)
Lemma quartile_edges_enclose (values : list Q) (x : Q) :
  x ∈ values ->
  exists e0 e1 e2 e3 e4,
    quartile_edges values = [e0; e1; e2; e3; e4] /\ (e0 <= x)%Q /\ (x <= e4)%Q.
Proof.
  intros Hx. unfold quartile_edges. cbn [map]. do 5 eexists.
  split; [reflexivity |].
  pose proof (StronglySorted_merge_sort Qle values) as Hs.
  assert (x ∈ merge_sort Qle values) as Hin
    by (by rewrite (merge_sort_Permutation Qle values)).
  rewrite quantile_linear_lowest, quantile_linear_highest. split.
  - destruct (merge_sort Qle values) as [|a l]; [by apply elem_of_nil in Hin |].
    simpl. by apply (StronglySorted_head_le a x l).
  - by apply StronglySorted_le_last.
Qed.

Lemma fltb_Fin_inv (a b : Q) : fltb (Fin a) (Fin b) = true -> (a < b)%Q.
Proof.
  unfold fltb. destruct (Qcompare_spec a b); try discriminate. done.
Qed.

Lemma feqb_Fin (a b : Q) : feqb (Fin a) (Fin b) = true <-> (a == b)%Q.
Proof.
  unfold feqb, fleb. rewrite <- (Qcompare_antisym a b).
  destruct (Qcompare_spec a b) as [E|L|G]; simpl; split; intros H;
    try done; try discriminate; lra.
Qed.

Lemma searchsorted_left_monotone (bins : list Q) (x y : Q) :
  (x <= y)%Q ->
  (searchsorted_left bins (Fin x) <= searchsorted_left bins (Fin y))%nat.
Proof.
  intros Hxy. induction bins as [|b bins IH]; cbn [searchsorted_left]; [lia |].
  destruct (fltb (Fin b) (Fin x)) eqn:E; [| lia].
  rewrite fltb_Fin_true; [lia |]. apply fltb_Fin_inv in E. lra.
Qed.

Lemma searchsorted_left_stops (bins : list Q) (b x : Q) :
  (x <= b)%Q ->
  (searchsorted_left (bins ++ [b]) (Fin x) <= length bins)%nat.
Proof.
  intros Hb. induction bins as [|a bins IH]; cbn [app searchsorted_left length].
  - by rewrite fltb_Fin_false.
  - destruct (fltb (Fin a) (Fin x)); lia.
Qed.

(** A value between the outer edges falls into one of the four bins. *)
Lemma bins_to_cuts_covers (e0 e1 e2 e3 e4 x : Q) :
  (e0 <= x)%Q -> (x <= e4)%Q ->
  exists k, bins_to_cuts [e0; e1; e2; e3; e4] true (Fin x) = Some k /\ (k < 4)%nat.
Proof.
  intros H0 H4. unfold bins_to_cuts. cbn [andb is_nan orb length].
  destruct (feqb (Fin x) (Fin e0)) eqn:E.
  - exists 0%nat. split; [reflexivity | lia].
  - assert (e0 < x)%Q as Hlt.
    { destruct (Qlt_le_dec e0 x) as [?|Hle]; [done |].
      assert (feqb (Fin x) (Fin e0) = true) by (apply feqb_Fin; lra). congruence. }
    pose proof (searchsorted_left_stops [e0; e1; e2; e3] e4 x H4) as Hs.
    cbn [app length] in Hs.
    assert (1 <= searchsorted_left [e0; e1; e2; e3; e4] (Fin x))%nat as H1.
    { cbn [searchsorted_left]. rewrite (fltb_Fin_true e0 x Hlt). lia. }
    set (ids := searchsorted_left [e0; e1; e2; e3; e4] (Fin x)) in *.
    exists (ids - 1)%nat.
    destruct (Nat.eqb_spec ids 5); [lia |]. destruct (Nat.eqb_spec ids 0); [lia |].
    split; [reflexivity | lia].
Qed.


Lemma mapM_finite_values (qs : list Q) :
  mapM finite_value (map Fin qs) = Some qs.
Proof. induction qs as [|q qs IH]; simpl; [done | by rewrite IH]. Qed.

Lemma quartile_edges_nil : has_duplicate (quartile_edges []) = true.
Proof. reflexivity. Qed.

(** [qcut] succeeds on finite values whose edges differ. *)
Lemma qcut4_finite (qs : list Q) (labels : list string) :
  has_duplicate (quartile_edges qs) = false ->
  qcut4 (map Fin qs) labels
  = Ok (CatCol labels (map (bins_to_cuts (quartile_edges qs) true) (map Fin qs))).
Proof.
  intros Hdup. unfold qcut4. rewrite mapM_finite_values.
  destruct qs as [|q qs]; [by rewrite quartile_edges_nil in Hdup |].
  by rewrite Hdup.
Qed.

Lemma segment_value_analysis_frame_of (rs : list CustomerRecord) :
  has_duplicate (quartile_edges (map TotalCharges rs)) = false ->
  let codes :=
    map (bins_to_cuts (quartile_edges (map TotalCharges rs)) true)
        (map Fin (map TotalCharges rs)) in
  CLVAnalyzer.segment_value_analysis (frame_of rs)
  = (setitem (frame_of rs) "ValueSegment" (CatCol CLVAnalyzer.value_labels codes),
     Ok (CLVAnalyzer.groupby_agg CLVAnalyzer.value_labels codes
           (map (fun r => Fin (MonthlyCharges r)) rs)
           (map of_int (map Tenure rs))
           (map of_int (map Churn rs))
           (map (fun r => Fin (TotalCharges r)) rs))).
Proof.
  intros Hdup codes. unfold CLVAnalyzer.segment_value_analysis.
  assert (getitem (frame_of rs) "TotalCharges"
          = Ok (FloatCol (map Fin (map TotalCharges rs)))) as ->
    by (by rewrite map_map).
  cbn [rbind to_float]. rewrite (qcut4_finite _ _ Hdup). reflexivity.
Qed.










(** ** Feature preparation *)

Lemma lookup_col_None (d : DataFrame) (c : string) :
  ~ In c (columns d) -> lookup_col c d = None.
Proof.
  induction d as [|[n col] d IH]; simpl; [done |]. intros H.
  destruct (String.eqb_spec n c) as [->|Hn]; [exfalso; auto |].
  apply IH. auto.
Qed.

Lemma lookup_col_filter_None (keep : string * Column -> bool) (d : DataFrame)
  (c : string) :
  lookup_col c d = None -> lookup_col c (List.filter keep d) = None.
Proof.
  induction d as [|[n col] d IH]; simpl; [done |].
  destruct (String.eqb n c) eqn:E; [discriminate |]. intros H.
  destruct (keep (n, col)); simpl; [rewrite E |]; by apply IH.
Qed.

Lemma lookup_col_In (d : DataFrame) (c : string) (col : Column) :
  lookup_col c d = Some col -> In (c, col) d.
Proof.
  induction d as [|[n col0] d IH]; simpl; [discriminate |].
  destruct (String.eqb_spec n c) as [->|Hn]; [| by right; apply IH].
  intros [= ->]. by left.
Qed.

Ltac cons_member :=
  match goal with
  | Hn : ?c ∉ ?a :: ?l, Hi : ?c ∈ ?l |- _ =>
      apply Hn, elem_of_cons; by right
  | Hi : ?c ∈ ?a :: ?l, Hn : ?c ∉ ?l |- _ =>
      apply elem_of_cons in Hi as [?|?]; [congruence | done]
  end.

Section Preparation.
Variable S : Type.
Variable fit_transform : S -> list (list fval) -> S * result (list (list fval)).

Lemma encode_column_unfold (encs : gmap string LabelEncoder) (d : DataFrame)
  (a : string) :
  encode_column (encs, d) a
  = match lookup_col a d with
    | Some (ObjCol values) =>
        (<[a := (LabelEncoder_fit_transform values).1]> encs,
         setitem d a (IntCol (LabelEncoder_fit_transform values).2))
    | _ => (encs, d)
    end.
Proof using Type. unfold encode_column. cbn [fst snd]. by destruct (lookup_col a d) as [[]|]. Qed.

Lemma encode_columns_encoders (cats : list string)
  (encs : gmap string LabelEncoder) (d : DataFrame) (c : string) :
  (fold_left encode_column cats (encs, d)).1 !! c = encoder_after encs d cats c.
Proof using Type.
  revert encs d. induction cats as [|a cats IH]; intros encs d.
  { unfold encoder_after. cbn [fold_left fst].
    destruct (lookup_col c d) as [[]|]; try done;
      by rewrite decide_False by apply not_elem_of_nil. }
  cbn [fold_left]. rewrite encode_column_unfold.
  destruct (lookup_col a d) as [[| |values| |]|] eqn:Ea;
    rewrite IH; unfold encoder_after.
  3: { destruct (decide (c = a)) as [->|Hne].
       - rewrite lookup_col_setitem_eq, Ea, lookup_insert_eq.
         by rewrite decide_True by left.
       - rewrite lookup_col_setitem_ne, lookup_insert_ne by done.
         destruct (lookup_col c d) as [[| |v| |]|]; try done.
         destruct (decide (c ∈ cats)), (decide (c ∈ a :: cats));
           first [done | exfalso; cons_member]. }
  all: destruct (lookup_col c d) as [[| |v| |]|] eqn:Ec; try done;
    destruct (decide (c ∈ cats)), (decide (c ∈ a :: cats)); try done; exfalso;
    assert (c <> a) by (intros ->; congruence); cons_member.
Qed.

Lemma encode_columns_keep_missing (cats : list string)
  (encs : gmap string LabelEncoder) (d : DataFrame) (c : string) :
  lookup_col c d = None ->
  lookup_col c (fold_left encode_column cats (encs, d)).2 = None.
Proof using Type.
  revert encs d. induction cats as [|a cats IH]; intros encs d Hc; [done |].
  cbn [fold_left]. rewrite encode_column_unfold.
  destruct (lookup_col a d) as [[| |values| |]|] eqn:Ea; try by apply IH.
  apply IH. rewrite lookup_col_setitem_ne; [done |]. intros ->. congruence.
Qed.

Lemma object_column_selected (d : DataFrame) (c : string) (values : list string) :
  lookup_col c d = Some (ObjCol values) -> c ∈ select_dtypes is_object d.
Proof using Type.
  intros H. apply lookup_col_In in H. unfold select_dtypes.
  apply list_elem_of_In, in_map_iff. exists (c, ObjCol values). split; [done |].
  apply filter_In. by split.
Qed.

(** C4, as the code has it.  When the target is no column of the data
    set, [prepare_model_data] raises the [KeyError] of the missing
    column; the data set and the scaler are as before, and the encoder
    collection holds a newly fitted encoder for every categorical column
    that is kept (all but CustomerID and LastUpdate) and its former
    entries elsewhere. *)
Theorem prepare_model_data_missing_target (p : DataProcessor S) (target : string) :
  ~ In target (columns (df p)) ->
  exists p',
    prepare_model_data S fit_transform p target = (p', Raise (KeyError target)) /\
    df p' = df p /\
    scaler p' = scaler p /\
    forall c : string,
      label_encoders p' !! c
      = match lookup_col c (drop_ignore (df p) ["CustomerID"; "LastUpdate"]) with
        | Some (ObjCol values) => Some {| classes_ := Some (np_unique values) |}
        | _ => label_encoders p !! c
        end.
Proof using Type.
  intros Habsent. apply lookup_col_None in Habsent.
  unfold prepare_model_data. set (d0 := drop_ignore (df p) _).
  assert (lookup_col target d0 = None) as H0
    by (by apply lookup_col_filter_None).
  unfold drop_col.
  rewrite (encode_columns_keep_missing _ (label_encoders p) d0 target H0).
  eexists. split; [reflexivity |]. cbn [df scaler label_encoders].
  split; [done |]. split; [done |]. intros c.
  rewrite encode_columns_encoders. unfold encoder_after.
  destruct (lookup_col c d0) as [[| |values| |]|] eqn:Ec; try done.
  by rewrite decide_True by (by eapply object_column_selected).
Qed.

End Preparation.

Lemma prepare_model_data_missing_target_sample :
  exists p',
    prepare_model_data unit Samples.scaler_fit_transform Samples.processor "Segment"
    = (p', Raise (KeyError "Segment")) /\
    df p' = df Samples.processor /\
    scaler p' = scaler Samples.processor /\
    label_encoders p' !! "ContractType"
    = Some {| classes_ := Some ["Month-to-Month"; "One Year"; "Two Year"] |}.
Proof.
  destruct (prepare_model_data_missing_target unit Samples.scaler_fit_transform
              Samples.processor "Segment") as (p' & E & Hdf & Hsc & Henc).
  - simpl. intros H. repeat (destruct H as [H|H]; [discriminate |]). exact H.
  - exists p'. split; [exact E |]. split; [exact Hdf |]. split; [exact Hsc |].
    rewrite Henc. reflexivity.
Defined.

(** The failed call leaves its encoders behind: the target "Segment" is
    no column of the sample data, the call raises, and the collection,
    empty before, holds an encoder for Gender afterwards. *)
Lemma missing_target_changes_encoders :
  let r := prepare_model_data unit Samples.scaler_fit_transform
             Samples.processor "Segment" in
  ~ In "Segment" (columns (df Samples.processor)) /\
  r.2 = Raise (KeyError "Segment") /\
  label_encoders Samples.processor !! "Gender" = None /\
  label_encoders r.1 !! "Gender" = Some {| classes_ := Some ["Female"] |} /\
  label_encoders r.1 <> label_encoders Samples.processor.
Proof.
  intros r.
  assert (label_encoders r.1 !! "Gender" = Some {| classes_ := Some ["Female"] |})
    as Hafter by (vm_compute; reflexivity).
  split; [| split; [| split; [| split]]].
  - simpl. intros H. repeat (destruct H as [H|H]; [discriminate |]). exact H.
  - vm_compute. reflexivity.
  - reflexivity.
  - exact Hafter.
  - intros Heq. rewrite Heq in Hafter. discriminate Hafter.
Qed.

(** * Further properties of the calculators *)

(** ** The range and the slope of the risk score *)

Lemma Forall2_right {A B : Type} (P : A -> B -> Prop) (Q' : B -> Prop)
  (l : list A) (k : list B) :
  (forall a b, P a b -> Q' b) -> Forall2 P l k -> Forall Q' k.
Proof. intros HPQ H. induction H; constructor; eauto. Qed.

(** On well-formed data the risk score stays between 13 and 90: it never
    reaches either end of the scale 0 to 100. *)
Theorem risk_score_between_13_and_90 (rs : list CustomerRecord) (m : Z) :
  Forall Spec.risk_well_formed rs ->
  Spec.is_max_tenure rs m ->
  (0 < m)%Z ->
  exists scores,
    RiskScorer.calculate_risk_score (frame_of rs) = Ok scores /\
    length scores = length rs /\
    Forall (in_range 13 90) scores.
Proof.
  intros Hwf Hmax Hm.
  destruct (calculate_risk_score_well_formed rs m Hwf Hmax Hm) as (scores & E & Hall).
  exists scores. split; [exact E |]. split.
  - symmetry. by eapply Forall2_length.
  - eapply Forall2_right; [| exact Hall].
    intros r s (q & cr & pr & -> & _ & _ & _ & H13 & H90). by exists q.
Qed.

Lemma risk_score_between_13_and_90_sample :
  exists scores,
    RiskScorer.calculate_risk_score (frame_of Samples.customers) = Ok scores /\
    length scores = length Samples.customers /\
    Forall (in_range 13 90) scores.
Proof.
  apply (risk_score_between_13_and_90 Samples.customers 10%Z).
  - sample_records.
  - split; [in_list | sample_records].
  - lia.
Defined.

Lemma contract_risk_functional (c : string) (v w : Q) :
  Spec.contract_risk c v -> Spec.contract_risk c w -> v = w.
Proof. intros Hv Hw. destruct Hv; inversion Hw; reflexivity. Qed.

Lemma payment_risk_functional (p : string) (v w : Q) :
  Spec.payment_risk p v -> Spec.payment_risk p w -> v = w.
Proof. intros Hv Hw. destruct Hv; inversion Hw; reflexivity. Qed.

Lemma ratio_monotone (a b m : Q) :
  (a <= b)%Q -> (0 < m)%Q -> (a / m <= b / m)%Q.
Proof.
  intros Hab Hm. unfold Qdiv. apply Qmult_le_compat_r; [done |].
  apply Qlt_le_weak, Qinv_lt_0_compat, Hm.
Qed.

(** Of two customers of a well-formed data set with the same contract type
    and payment method, the one with at least the tenure and at least the
    satisfaction of the other has at most the other's risk score. *)
Theorem risk_score_decreases_with_tenure_and_satisfaction
  (rs : list CustomerRecord) (m : Z) (i j : nat) (ri rj : CustomerRecord) :
  Forall Spec.risk_well_formed rs ->
  Spec.is_max_tenure rs m ->
  (0 < m)%Z ->
  rs !! i = Some ri -> rs !! j = Some rj ->
  ContractType ri = ContractType rj ->
  PaymentMethod ri = PaymentMethod rj ->
  (Tenure ri <= Tenure rj)%Z ->
  (SatisfactionScore ri <= SatisfactionScore rj)%Q ->
  exists scores qi qj,
    RiskScorer.calculate_risk_score (frame_of rs) = Ok scores /\
    scores !! i = Some (Fin qi) /\ scores !! j = Some (Fin qj) /\
    (qj <= qi)%Q.
Proof.
  intros Hwf Hmax Hm Hi Hj Hc Hp Ht Hs.
  destruct (calculate_risk_score_well_formed rs m Hwf Hmax Hm) as (scores & E & Hall).
  destruct (Forall2_lookup_l _ _ _ _ _ Hall Hi)
    as (si & Hsi & qi & ci & pi & -> & Hci & Hpi & Hqi & _).
  destruct (Forall2_lookup_l _ _ _ _ _ Hall Hj)
    as (sj & Hsj & qj & cj & pj & -> & Hcj & Hpj & Hqj & _).
  exists scores, qi, qj. repeat split; try done.
  rewrite Hc in Hci. rewrite Hp in Hpi.
  rewrite (contract_risk_functional _ _ _ Hci Hcj) in Hqi.
  rewrite (payment_risk_functional _ _ _ Hpi Hpj) in Hqi.
  rewrite Hqi, Hqj. unfold Spec.risk_score.
  pose proof (inject_Z_pos m Hm) as Hmq.
  pose proof (ratio_monotone _ _ _ (inject_Z_le _ _ Ht) Hmq) as Hr.
  set (xi := (inject_Z (Tenure ri) / inject_Z m)%Q) in *.
  set (xj := (inject_Z (Tenure rj) / inject_Z m)%Q) in *.
  assert (100 * inject_Z (Tenure ri) / inject_Z m == 100 * xi)%Q as ->
    by (unfold xi; field; lra).
  assert (100 * inject_Z (Tenure rj) / inject_Z m == 100 * xj)%Q as ->
    by (unfold xj; field; lra).
  clearbody xi xj. unfold Qdiv. change (/ 5)%Q with (1 # 5)%Q. lra.
Qed.

(** Two month-to-month customers of the sample: the second by row. *)
Lemma risk_score_decreases_with_tenure_and_satisfaction_sample :
  exists scores qi qj,
    RiskScorer.calculate_risk_score (frame_of Samples.monthly_customers) = Ok scores /\
    scores !! 0%nat = Some (Fin qi) /\ scores !! 1%nat = Some (Fin qj) /\
    (qj <= qi)%Q.
Proof.
  apply (risk_score_decreases_with_tenure_and_satisfaction
           Samples.monthly_customers 12%Z 0%nat 1%nat
           (Samples.customer 1 2 "Month-to-Month" "Mailed check" 70 140 2 "No" "No")
           (Samples.customer 2 12 "Month-to-Month" "Mailed check" 90 1000 4 "Yes" "No")).
  - sample_records.
  - split; [in_list | sample_records].
  - lia.
  - reflexivity.
  - reflexivity.
  - reflexivity.
  - reflexivity.
  - simpl. lia.
  - closed_order.
Defined.

(** ** A largest tenure of zero *)

Lemma risk_row_zero_tenure (r : CustomerRecord) :
  Tenure r = 0%Z -> risk_row (of_int 0) r = NaN.
Proof. intros H. unfold risk_row. rewrite H. reflexivity. Qed.

Lemma engagement_row_zero_tenure (r : CustomerRecord) :
  Tenure r = 0%Z -> engagement_row (of_int 0) r = NaN.
Proof.
  intros H. unfold engagement_row. rewrite H.
  change (fmul (fmul (fdiv (of_int 0) (of_int 0)) (Fin 100)) (Fin (3 # 10))) with NaN.
  by rewrite fadd_nan_r.
Qed.

(** When the largest tenure of the data set is 0, neither score raises:
    the division by it yields NaN, and both the risk score and the
    engagement score of every customer of tenure 0 are NaN. *)
Theorem zero_max_tenure_gives_nan (rs : list CustomerRecord) :
  Spec.is_max_tenure rs 0 ->
  exists risk engagement,
    RiskScorer.calculate_risk_score (frame_of rs) = Ok risk /\
    EngagementAnalyzer.calculate_engagement_score (frame_of rs) = Ok engagement /\
    forall (i : nat) (r : CustomerRecord),
      rs !! i = Some r -> Tenure r = 0%Z ->
      risk !! i = Some NaN /\ engagement !! i = Some NaN.
Proof.
  intros Hmax. do 2 eexists.
  split; [apply calculate_risk_score_rows |].
  split; [apply calculate_engagement_score_rows |].
  rewrite (is_max_tenure_series rs 0 Hmax).
  intros i r Hi Ht. rewrite !list_lookup_fmap, Hi. cbn [fmap option_fmap option_map].
  by rewrite risk_row_zero_tenure, engagement_row_zero_tenure.
Qed.

Lemma zero_max_tenure_gives_nan_sample :
  exists risk engagement,
    RiskScorer.calculate_risk_score (frame_of Samples.new_customers) = Ok risk /\
    EngagementAnalyzer.calculate_engagement_score (frame_of Samples.new_customers)
    = Ok engagement /\
    risk !! 2%nat = Some NaN /\ engagement !! 2%nat = Some NaN.
Proof.
  destruct (zero_max_tenure_gives_nan Samples.new_customers) as (risk & eng & E1 & E2 & H).
  - split; [in_list | sample_records].
  - exists risk, eng. split; [exact E1 |]. split; [exact E2 |].
    apply (H 2%nat (Samples.customer 3 0 "One Year" "Mailed check" 70 0 4 "No" "No"));
      reflexivity.
Defined.

(** ** The order of the risk categories *)

Lemma bins_to_cuts_monotone_open (bins : list Q) (x y : Q) (kx ky : nat) :
  (x <= y)%Q ->
  bins_to_cuts bins false (Fin x) = Some kx ->
  bins_to_cuts bins false (Fin y) = Some ky ->
  (kx <= ky)%nat.
Proof.
  intros Hxy Hx Hy.
  pose proof (searchsorted_left_monotone bins x y Hxy) as Hmono.
  unfold bins_to_cuts in Hx, Hy. cbn [andb is_nan orb] in Hx, Hy.
  assert (forall v, match bins with
                    | [] => searchsorted_left bins v
                    | _ :: _ => searchsorted_left bins v
                    end = searchsorted_left bins v) as Hsame by (by destruct bins).
  rewrite Hsame in Hx, Hy.
  set (sx := searchsorted_left bins (Fin x)) in *.
  set (sy := searchsorted_left bins (Fin y)) in *.
  clearbody sx sy.
  destruct (Nat.eqb sx (length bins) || Nat.eqb sx 0) eqn:Ex; [discriminate |].
  destruct (Nat.eqb sy (length bins) || Nat.eqb sy 0) eqn:Ey; [discriminate |].
  simplify_eq. lia.
Qed.

(** The categories follow the scores: of two records that both got a
    category, the one with the larger score never has the lower category,
    in the order Low, Medium, High. *)
Theorem risk_categories_follow_scores (d : DataFrame) (scores : list fval)
  (codes : list (option nat)) (labels : list string)
  (i j ki kj : nat) (qi qj : Q) :
  RiskScorer.calculate_risk_score d = Ok scores ->
  RiskCategories.get_risk_categories d = Ok (CatCol labels codes) ->
  scores !! i = Some (Fin qi) -> scores !! j = Some (Fin qj) ->
  codes !! i = Some (Some ki) -> codes !! j = Some (Some kj) ->
  (qi <= qj)%Q ->
  labels = ["Low Risk"; "Medium Risk"; "High Risk"] /\ (ki <= kj)%nat.
Proof.
  intros E Hcats Hi Hj Hki Hkj Hle.
  rewrite (get_risk_categories_cut d scores E) in Hcats. simplify_eq.
  split; [reflexivity |].
  rewrite list_lookup_fmap, Hi in Hki. rewrite list_lookup_fmap, Hj in Hkj.
  cbn [fmap option_fmap option_map] in Hki, Hkj. simplify_eq.
  by eapply bins_to_cuts_monotone_open.
Qed.

Lemma risk_categories_follow_scores_sample :
  ["Low Risk"; "Medium Risk"; "High Risk"] = ["Low Risk"; "Medium Risk"; "High Risk"] /\
  (0 <= 2)%nat.
Proof.
  apply (risk_categories_follow_scores (frame_of Samples.customers)
           [Fin (8500000 # 500000); Fin (45000000 # 500000);
            Fin (48000000 # 1000000); Fin (23000000 # 500000)]
           [Some 0; Some 2; Some 1; Some 1]%nat
           ["Low Risk"; "Medium Risk"; "High Risk"]
           0%nat 1%nat 0%nat 2%nat (8500000 # 500000) (45000000 # 500000)).
  - vm_compute. reflexivity.
  - vm_compute. reflexivity.
  - reflexivity.
  - reflexivity.
  - reflexivity.
  - reflexivity.
  - closed_order.
Defined.

(** ** The engagement score: bounds, maximum, unknown contract types *)

Lemma contract_score_functional (c : string) (v w : Q) :
  Spec.contract_score c v -> Spec.contract_score c w -> v = w.
Proof. intros Hv Hw. destruct Hv; inversion Hw; reflexivity. Qed.

Lemma contract_score_top (c : string) (v : Q) :
  Spec.contract_score c v -> (v == 100)%Q -> c = "Two Year".
Proof. intros [] H; [discriminate H | discriminate H | reflexivity]. Qed.

Lemma services_used_range (r : CustomerRecord) : (Spec.services_used r <= 4)%nat.
Proof.
  pose proof (service_count_range r) as H. rewrite <- services_used_count in H. lia.
Qed.

Lemma inject_Z_eq (a b : Z) : (inject_Z a == inject_Z b)%Q -> a = b.
Proof. unfold Qeq. simpl. lia. Qed.

Lemma ratio_one (t m : Q) : (0 < m)%Q -> (t / m == 1)%Q -> (t == m)%Q.
Proof.
  intros Hm H.
  assert (t == (t / m) * m)%Q as -> by (field; lra).
  rewrite H. ring.
Qed.

(** On well-formed data the engagement score lies between 9.9 and 100, and
    it is 100 exactly for a customer who uses all four services, has the
    largest tenure of the data set and a two-year contract. *)
Theorem engagement_score_range_and_maximum (rs : list CustomerRecord) (m : Z) :
  Forall Spec.engagement_well_formed rs ->
  Spec.is_max_tenure rs m ->
  (0 < m)%Z ->
  exists scores,
    EngagementAnalyzer.calculate_engagement_score (frame_of rs) = Ok scores /\
    Forall2 (fun r s =>
               exists q,
                 s = Fin q /\ (99 # 10 <= q)%Q /\ (q <= 100)%Q /\
                 ((q == 100)%Q <->
                  Spec.services_used r = 4%nat /\ Tenure r = m /\
                  ContractType r = "Two Year")) rs scores.
Proof.
  intros Hwf Hmax Hm. eexists. split; [apply calculate_engagement_score_rows |].
  rewrite (is_max_tenure_series rs m Hmax).
  destruct Hmax as [_ Hle].
  apply Forall2_fmap_r, Forall_Forall2_diag.
  rewrite Forall_forall in Hwf, Hle. apply Forall_forall. intros r Hr.
  destruct (engagement_row_well_formed m r Hm (Hle r Hr) (Hwf r Hr))
    as (q & cs & E & Hcs & Hq & _ & _).
  exists q. split; [exact E |].
  destruct (Hwf r Hr) as [_ Ht].
  pose proof (inject_Z_pos m Hm) as Hmq.
  pose proof (ratio_bounds _ _ (inject_Z_le 0 _ Ht) (inject_Z_le _ _ (Hle r Hr)) Hmq)
    as [Hx0 Hx1].
  pose proof (contract_score_range _ _ Hcs) as [Hc0 Hc1].
  pose proof (services_used_range r) as Hu.
  assert (0 <= inject_Z (Z.of_nat (Spec.services_used r)))%Q as Hs0.
  { change 0%Q with (inject_Z 0). apply inject_Z_le. lia. }
  assert (inject_Z (Z.of_nat (Spec.services_used r)) <= 4)%Q as Hs4.
  { change 4%Q with (inject_Z 4). apply inject_Z_le. lia. }
  unfold Spec.engagement_score in Hq.
  remember (inject_Z (Tenure r) / inject_Z m)%Q as x eqn:Ex.
  remember (inject_Z (Z.of_nat (Spec.services_used r))) as s eqn:Es.
  unfold Qdiv in Hq. change (/ 4)%Q with (1 # 4)%Q in Hq.
  split; [lra |]. split; [lra |]. split.
  - intros H100.
    assert (s == 4)%Q as Hs by lra.
    assert (x == 1)%Q as Hx by lra.
    assert (cs == 100)%Q as Hc by lra.
    split; [| split].
    + subst s. change 4%Q with (inject_Z (Z.of_nat 4)) in Hs.
      apply inject_Z_eq in Hs. lia.
    + subst x. apply ratio_one in Hx; [| done]. by apply inject_Z_eq.
    + by eapply contract_score_top.
  - intros (Hused & Htm & Hct).
    rewrite Hct in Hcs. inversion Hcs; subst cs.
    assert (s == 4)%Q as Hs by (subst s; rewrite Hused; reflexivity).
    assert (x == 1)%Q as Hx by (subst x; rewrite Htm; field; lra).
    rewrite Hq, Hs, Hx. reflexivity.
Qed.

Lemma engagement_score_range_and_maximum_sample :
  exists scores,
    EngagementAnalyzer.calculate_engagement_score (frame_of Samples.customers)
    = Ok scores /\
    Forall2 (fun r s =>
               exists q,
                 s = Fin q /\ (99 # 10 <= q)%Q /\ (q <= 100)%Q /\
                 ((q == 100)%Q <->
                  Spec.services_used r = 4%nat /\ Tenure r = 10%Z /\
                  ContractType r = "Two Year")) Samples.customers scores.
Proof.
  apply (engagement_score_range_and_maximum Samples.customers 10%Z).
  - sample_records.
  - split; [in_list | sample_records].
  - lia.
Defined.

Lemma contract_score_unknown (c : string) :
  ~ In c Spec.contract_types ->
  map_value EngagementAnalyzer.contract_score_table c = NaN.
Proof.
  intros H. unfold map_value, EngagementAnalyzer.contract_score_table.
  rewrite !lookup_insert_ne, lookup_singleton_ne; [done | ..];
    intros <-; apply H; simpl; auto.
Qed.

(** The engagement score raises nothing on a contract type that the score
    table does not hold, such as the loader's raw "Month-to-month": the
    record's score is NaN. *)
Theorem engagement_score_unknown_contract (rs : list CustomerRecord) :
  exists scores,
    EngagementAnalyzer.calculate_engagement_score (frame_of rs) = Ok scores /\
    length scores = length rs /\
    forall (i : nat) (r : CustomerRecord),
      rs !! i = Some r ->
      ~ In (ContractType r) Spec.contract_types ->
      scores !! i = Some NaN.
Proof.
  eexists. split; [apply calculate_engagement_score_rows |].
  split; [by rewrite length_map |].
  intros i r Hi Hr. rewrite list_lookup_fmap, Hi. cbn [fmap option_fmap option_map].
  f_equal. unfold engagement_row. rewrite (contract_score_unknown _ Hr).
  cbn [fmul]. apply fadd_nan_r.
Qed.

Lemma engagement_score_unknown_contract_sample :
  exists scores,
    EngagementAnalyzer.calculate_engagement_score (frame_of Samples.raw_contract_customers)
    = Ok scores /\
    scores !! 0%nat = Some NaN.
Proof.
  destruct (engagement_score_unknown_contract Samples.raw_contract_customers)
    as (scores & E & _ & H).
  exists scores. split; [exact E |].
  apply (H 0%nat (Samples.customer 1 5 "Month-to-month" "Mailed check" 50 250 4 "Yes" "No")).
  - reflexivity.
  - simpl. intros [?|[?|[?|[]]]]; discriminate.
Defined.

(** ** Service adoption and insights *)

Lemma calculate_service_adoption_rows (rs : list CustomerRecord) :
  EngagementInsights.calculate_service_adoption (frame_of rs)
  = Ok (map (fun r => Fin (inject_Z (service_count r) / inject_Z 4)) rs).
Proof.
  unfold EngagementInsights.calculate_service_adoption.
  rewrite count_services_rows. cbn [rbind service_columns length]. f_equal.
  rewrite map_map. apply map_ext. intros r. unfold of_int.
  by rewrite fdiv_finite.
Qed.

(** Service adoption is, for every record and whatever the service fields
    hold, the share of the four service fields that are not "No": one of
    0, 1/4, 1/2, 3/4, 1. *)
Theorem service_adoption_is_a_share (rs : list CustomerRecord) :
  exists adoption,
    EngagementInsights.calculate_service_adoption (frame_of rs) = Ok adoption /\
    Forall2 (fun r a =>
               exists q,
                 a = Fin q /\
                 (q == inject_Z (Z.of_nat (Spec.services_used r)) / 4)%Q /\
                 (0 <= q)%Q /\ (q <= 1)%Q) rs adoption.
Proof.
  eexists. split; [apply calculate_service_adoption_rows |].
  apply Forall2_fmap_r, Forall_Forall2_diag, Forall_forall. intros r _.
  eexists. split; [reflexivity |].
  rewrite services_used_count.
  pose proof (service_count_range r) as [H0 H4]. apply inject_Z_le in H0, H4.
  change (inject_Z 0) with 0%Q in H0. change (inject_Z 4) with 4%Q in *.
  split; [reflexivity |].
  set (s := inject_Z (service_count r)) in *. clearbody s.
  unfold Qdiv. change (/ 4)%Q with (1 # 4)%Q. split; lra.
Qed.

Lemma get_engagement_insights_frame (rs : list CustomerRecord) :
  EngagementInsights.get_engagement_insights (frame_of rs)
  = Ok {| EngagementInsights.EngagementScore :=
            map (engagement_row (series_max (map of_int (map Tenure rs)))) rs;
          EngagementInsights.ServiceAdoption :=
            map (fun r => Fin (inject_Z (service_count r) / inject_Z 4)) rs;
          EngagementInsights.ContractCommitment :=
            map (fun r => EngagementInsights.commitment_table !! ContractType r) rs;
          EngagementInsights.TenureColumn := IntCol (map Tenure rs) |}.
Proof.
  unfold EngagementInsights.get_engagement_insights.
  rewrite calculate_engagement_score_rows, calculate_service_adoption_rows.
  assert (getitem (frame_of rs) "ContractType" = Ok (ObjCol (map ContractType rs)))
    as -> by reflexivity.
  assert (getitem (frame_of rs) "Tenure" = Ok (IntCol (map Tenure rs)))
    as -> by reflexivity.
  cbn [rbind EngagementInsights.map_labels]. by rewrite (map_map ContractType).
Qed.

(** The insights hold one row per record in each of their four columns;
    the commitment of a record is Low, Medium or High for the three
    contract types of the table and missing for any other. *)
Theorem engagement_insights_rows (rs : list CustomerRecord) :
  exists ins,
    EngagementInsights.get_engagement_insights (frame_of rs) = Ok ins /\
    EngagementAnalyzer.calculate_engagement_score (frame_of rs)
    = Ok (EngagementInsights.EngagementScore ins) /\
    EngagementInsights.calculate_service_adoption (frame_of rs)
    = Ok (EngagementInsights.ServiceAdoption ins) /\
    EngagementInsights.TenureColumn ins = IntCol (map Tenure rs) /\
    length (EngagementInsights.EngagementScore ins) = length rs /\
    length (EngagementInsights.ServiceAdoption ins) = length rs /\
    Forall2 (fun r label =>
               (ContractType r = "Month-to-Month" -> label = Some "Low") /\
               (ContractType r = "One Year" -> label = Some "Medium") /\
               (ContractType r = "Two Year" -> label = Some "High") /\
               (~ In (ContractType r) Spec.contract_types -> label = None))
            rs (EngagementInsights.ContractCommitment ins).
Proof.
  eexists. split; [apply get_engagement_insights_frame |].
  cbn [EngagementInsights.EngagementScore EngagementInsights.ServiceAdoption
       EngagementInsights.TenureColumn EngagementInsights.ContractCommitment].
  split; [apply calculate_engagement_score_rows |].
  split; [apply calculate_service_adoption_rows |]. split; [done |].
  split; [by rewrite length_map |]. split; [by rewrite length_map |].
  apply Forall2_fmap_r, Forall_Forall2_diag, Forall_forall. intros r _.
  repeat split.
  - by intros ->.
  - by intros ->.
  - by intros ->.
  - intros H. unfold EngagementInsights.commitment_table.
    rewrite !lookup_insert_ne, lookup_singleton_ne; [done | ..];
      intros E; apply H; rewrite <- E; simpl; auto.
Qed.


Lemma engagement_insights_rows_sample :
  exists ins,
    EngagementInsights.get_engagement_insights (frame_of Samples.raw_contract_customers)
    = Ok ins /\
    EngagementInsights.ContractCommitment ins = [None; Some "High"].
Proof.
  destruct (engagement_insights_rows Samples.raw_contract_customers)
    as (ins & E & _ & _ & _ & _ & _ & Hall).
  exists ins. split; [exact E |].
  destruct (EngagementInsights.ContractCommitment ins) as [|a [|b [|c l]]];
    try (by apply Forall2_length in Hall).
  apply Forall2_cons_1 in Hall as [(_ & _ & _ & Ha) Hall].
  apply Forall2_cons_1 in Hall as [(_ & _ & Hb & _) _].
  rewrite Ha, Hb; [reflexivity | reflexivity |].
  simpl. intros [?|[?|[?|[]]]]; discriminate.
Defined.

(** ** Value segments: equal charges, and revenue by tier *)

Lemma nth_all_equal (l : list Q) (c : Q) (i : nat) :
  Forall (fun x => (x == c)%Q) l -> (i < length l)%nat -> (nth i l 0 == c)%Q.
Proof.
  intros Hall. revert i. induction Hall as [|x l Hx Hall IH]; intros i Hi.
  - simpl in Hi. lia.
  - destruct i as [|i]; simpl; [done |]. apply IH. simpl in Hi. lia.
Qed.

Lemma merge_sort_all_equal (l : list Q) (c : Q) :
  Forall (fun x => (x == c)%Q) l ->
  Forall (fun x => (x == c)%Q) (merge_sort Qle l).
Proof.
  intros Hall. rewrite Forall_forall in Hall. apply Forall_forall. intros x Hx.
  apply Hall. by rewrite <- (merge_sort_Permutation Qle l).
Qed.

Lemma quantile_linear_all_equal (sorted : list Q) (c : Q) (j : nat) :
  Forall (fun x => (x == c)%Q) sorted -> sorted <> [] -> (j <= 4)%nat ->
  (quantile_linear sorted j 4 == c)%Q.
Proof.
  intros Hall Hne Hj. unfold quantile_linear.
  assert (0 < length sorted)%nat as Hlen by (destruct sorted; [done | simpl; lia]).
  assert ((length sorted - 1) * j / 4 <= length sorted - 1)%nat as Hlo.
  { transitivity ((length sorted - 1) * 4 / 4)%nat.
    - apply Nat.Div0.div_le_mono. nia.
    - by rewrite Nat.div_mul. }
  rewrite (nth_all_equal sorted c _ Hall) by lia.
  rewrite (nth_all_equal sorted c _ Hall) by lia.
  ring.
Qed.

(** Whenever all customers of a data set have the same total charges
    (new customers who were never charged, or a single customer), the
    quartile edges coincide and the value analysis raises; the frame stays
    as it was. *)
Theorem equal_total_charges_raise (rs : list CustomerRecord) (c : Q) :
  rs <> [] ->
  Forall (fun r => (TotalCharges r == c)%Q) rs ->
  CLVAnalyzer.segment_value_analysis (frame_of rs)
  = (frame_of rs, Raise (ValueError "Bin edges must be unique")).
Proof.
  intros _ Hall. unfold CLVAnalyzer.segment_value_analysis.
  assert (getitem (frame_of rs) "TotalCharges"
          = Ok (FloatCol (map Fin (map TotalCharges rs)))) as ->
    by (by rewrite map_map).
  cbn [rbind to_float]. unfold qcut4. rewrite mapM_finite_values.
  destruct (map TotalCharges rs) as [|q qs] eqn:Eq; [reflexivity |].
  assert (has_duplicate (quartile_edges (q :: qs)) = true) as ->; [| reflexivity].
  assert (Forall (fun x => (x == c)%Q) (q :: qs)) as Hqs.
  { rewrite <- Eq. by apply Forall_map. }
  apply merge_sort_all_equal in Hqs.
  assert (merge_sort Qle (q :: qs) <> []) as Hne.
  { intros Hnil. pose proof (merge_sort_Permutation Qle (q :: qs)) as Hp.
    rewrite Hnil in Hp. by apply Permutation_nil_cons in Hp. }
  unfold quartile_edges. cbn [map has_duplicate existsb].
  assert (Qeq_bool (quantile_linear (merge_sort Qle (q :: qs)) 0 4)
                   (quantile_linear (merge_sort Qle (q :: qs)) 1 4) = true) as ->.
  { apply Qeq_bool_iff.
    rewrite !(quantile_linear_all_equal _ c) by (done || lia). reflexivity. }
  reflexivity.
Qed.

Lemma equal_total_charges_raise_sample :
  CLVAnalyzer.segment_value_analysis (frame_of Samples.new_customers)
  = (frame_of Samples.new_customers, Raise (ValueError "Bin edges must be unique")).
Proof.
  apply (equal_total_charges_raise Samples.new_customers 0); [discriminate |].
  repeat (apply List.Forall_cons; [reflexivity |]). apply List.Forall_nil.
Defined.

Lemma qcut_codes_in_range (rs : list CustomerRecord) :
  Forall (fun code : option nat => exists k, code = Some k /\ (k < 4)%nat)
    (map (bins_to_cuts (quartile_edges (map TotalCharges rs)) true)
         (map Fin (map TotalCharges rs))).
Proof.
  apply Forall_forall. intros code Hcode.
  apply list_elem_of_fmap in Hcode as (x & -> & Hx).
  apply list_elem_of_fmap in Hx as (q & -> & Hq).
  destruct (quartile_edges_enclose _ _ Hq) as (e0 & e1 & e2 & e3 & e4 & -> & H0 & H4).
  by apply bins_to_cuts_covers.
Qed.

Lemma select_group_map {A B : Type} (f : A -> B) (k : nat)
  (codes : list (option nat)) (l : list A) :
  select_group k codes (map f l) = map f (select_group k codes l).
Proof.
  revert l. induction codes as [|c codes IH]; intros [|x l]; simpl; try done.
  destruct (decide (c = Some k)); simpl; by rewrite IH.
Qed.

(** Rows whose codes are all among 0..3 are split by the four groups:
    together the groups hold every row once. *)
Lemma select_group_partition {A : Type} (codes : list (option nat)) (l : list A) :
  length codes = length l ->
  Forall (fun code : option nat => exists k, code = Some k /\ (k < 4)%nat) codes ->
  select_group 0 codes l ++ select_group 1 codes l
    ++ select_group 2 codes l ++ select_group 3 codes l ≡ₚ l.
Proof.
  revert l. induction codes as [|c codes IH]; intros [|x l] Hlen Hall;
    try discriminate; simpl; [done |].
  inversion Hall as [|? ? (k & -> & Hk) Hall']; subst.
  injection Hlen as Hlen. specialize (IH l Hlen Hall').
  transitivity (x :: (select_group 0 codes l ++ select_group 1 codes l
                        ++ select_group 2 codes l ++ select_group 3 codes l));
    [| by constructor].
  destruct k as [|[|[|[|k]]]]; [| | | | lia];
    repeat (destruct (decide _) as [?|?]; try congruence);
    simpl; by rewrite <- ?Permutation_middle.
Qed.

(** When the value analysis succeeds, every record enters the sum of
    exactly one tier: the row of a tier sums the total charges of the
    tier's records, and the records of the four tiers, taken together,
    are the records of the data set, each of them once. *)
Theorem tier_revenue_counts_each_record_once (rs : list CustomerRecord) :
  has_duplicate (quartile_edges (map TotalCharges rs)) = false ->
  exists codes rows,
    CLVAnalyzer.segment_value_analysis (frame_of rs)
    = (setitem (frame_of rs) "ValueSegment" (CatCol CLVAnalyzer.value_labels codes),
       Ok rows) /\
    length rows = 4%nat /\
    (forall (k : nat) (row : CLVAnalyzer.SegmentRow),
       rows !! k = Some row ->
       CLVAnalyzer.sum_TotalCharges row
       = fsum (map (fun r => Fin (TotalCharges r)) (select_group k codes rs))) /\
    select_group 0 codes rs ++ select_group 1 codes rs
      ++ select_group 2 codes rs ++ select_group 3 codes rs ≡ₚ rs /\
    (length (select_group 0 codes rs) + length (select_group 1 codes rs)
     + length (select_group 2 codes rs) + length (select_group 3 codes rs)
     = length rs)%nat.
Proof.
  intros Hdup. do 2 eexists.
  split; [by apply segment_value_analysis_frame_of |].
  pose proof (qcut_codes_in_range rs) as Hrange.
  set (codes := map _ (map Fin (map TotalCharges rs))) in *.
  assert (length codes = length rs) as Hlen
    by (unfold codes; by rewrite !length_map).
  pose proof (select_group_partition codes rs Hlen Hrange) as Hperm.
  split; [reflexivity |]. split; [| split; [done |]].
  - intros k row Hrow. unfold CLVAnalyzer.groupby_agg in Hrow.
    rewrite list_lookup_imap in Hrow.
    destruct (CLVAnalyzer.value_labels !! k) as [label|]; [| discriminate].
    cbn [fmap option_fmap option_map] in Hrow. simplify_eq.
    cbn [CLVAnalyzer.sum_TotalCharges]. by rewrite select_group_map.
  - apply Permutation_length in Hperm. rewrite !length_app in Hperm. lia.
Qed.

Lemma tier_revenue_counts_each_record_once_sample :
  exists codes rows,
    CLVAnalyzer.segment_value_analysis (frame_of Samples.customers)
    = (setitem (frame_of Samples.customers) "ValueSegment"
         (CatCol CLVAnalyzer.value_labels codes), Ok rows) /\
    length rows = 4%nat /\
    (forall (k : nat) (row : CLVAnalyzer.SegmentRow),
       rows !! k = Some row ->
       CLVAnalyzer.sum_TotalCharges row
       = fsum (map (fun r => Fin (TotalCharges r))
                 (select_group k codes Samples.customers))) /\
    select_group 0 codes Samples.customers ++ select_group 1 codes Samples.customers
      ++ select_group 2 codes Samples.customers
      ++ select_group 3 codes Samples.customers ≡ₚ Samples.customers /\
    (length (select_group 0 codes Samples.customers)
     + length (select_group 1 codes Samples.customers)
     + length (select_group 2 codes Samples.customers)
     + length (select_group 3 codes Samples.customers)
     = length Samples.customers)%nat.
Proof.
  apply (tier_revenue_counts_each_record_once Samples.customers).
  vm_compute. reflexivity.
Defined.

(** ** Customer metrics *)

Lemma getitems_setitem_other (d : DataFrame) (name : string) (c : Column)
  (names : list string) :
  ~ In name names -> getitems (setitem d name c) names = getitems d names.
Proof.
  induction names as [|n names IH]; intros Hn; [done |].
  cbn [getitems]. unfold getitem.
  rewrite lookup_col_setitem_ne by (intros ->; apply Hn; by left).
  rewrite IH; [done |]. intros H. apply Hn. by right.
Qed.

Lemma count_services_setitem_other (d : DataFrame) (name : string) (c : Column) :
  ~ In name service_columns ->
  count_services (setitem d name c) = count_services d.
Proof. intros H. unfold count_services. by rewrite getitems_setitem_other. Qed.

Lemma clip_lower_of_int (t : Z) :
  clip_lower (Fin 1) (of_int t) = of_int (Z.max t 1).
Proof.
  unfold clip_lower. change (Fin 1) with (of_int 1).
  unfold fltb, of_int. rewrite Qcompare_inject_Z. unfold Z.max.
  by destruct (t ?= 1)%Z.
Qed.

(** On a data set of the schema [calculate_customer_metrics] succeeds:
    CLV is monthly charges times tenure; ARPU is total charges over the
    tenure raised to at least 1, so that no customer, of whatever tenure,
    gets an infinite or missing ARPU; the usage score counts the service
    fields that are not "No". *)
Theorem calculate_customer_metrics_values (S : Type) (p : DataProcessor S)
  (rs : list CustomerRecord) :
  df p = frame_of rs ->
  exists d' arpu,
    calculate_customer_metrics S p = (with_df S p d', Ok d') /\
    lookup_col "CLV" d'
    = Some (FloatCol (map (fun r => Fin (MonthlyCharges r * inject_Z (Tenure r))) rs)) /\
    lookup_col "ARPU" d' = Some (FloatCol arpu) /\
    Forall2 (fun r a =>
               exists q, a = Fin q /\
                 (q == TotalCharges r / inject_Z (Z.max (Tenure r) 1))%Q) rs arpu /\
    lookup_col "ServiceUsageScore" d'
    = Some (IntCol (map (fun r => Z.of_nat (Spec.services_used r)) rs)).
Proof.
  intros Hdf. unfold calculate_customer_metrics. rewrite Hdf.
  assert (getitem (frame_of rs) "MonthlyCharges"
          = Ok (FloatCol (map (fun r => Fin (MonthlyCharges r)) rs))) as -> by reflexivity.
  assert (getitem (frame_of rs) "Tenure" = Ok (IntCol (map Tenure rs))) as Ht
    by reflexivity.
  rewrite Ht. cbn [rbind to_float].
  unfold getitem at 1 2.
  rewrite !lookup_col_setitem_ne by discriminate.
  change (lookup_col "TotalCharges" (frame_of rs))
    with (Some (FloatCol (map (fun r => Fin (TotalCharges r)) rs))).
  change (lookup_col "Tenure" (frame_of rs)) with (Some (IntCol (map Tenure rs))).
  cbn [rbind to_float].
  rewrite !count_services_setitem_other
    by (simpl; intros [?|[?|[?|[?|[]]]]]; discriminate).
  rewrite count_services_rows.
  do 2 eexists. split; [reflexivity |].
  split; [| split; [| split]].
  - rewrite !lookup_col_setitem_ne by discriminate.
    rewrite lookup_col_setitem_eq. f_equal. f_equal.
    rewrite map_map. by rewrite (zip_with_f_map fmul _ _ rs).
  - rewrite lookup_col_setitem_ne by discriminate.
    by rewrite lookup_col_setitem_eq.
  - rewrite !map_map. rewrite (zip_with_f_map fdiv _ _ rs).
    apply Forall2_fmap_r, Forall_Forall2_diag, Forall_forall. intros r _.
    unfold compose. rewrite clip_lower_of_int. unfold of_int. eexists. split.
    + apply fdiv_finite. apply inject_Z_pos. lia.
    + reflexivity.
  - rewrite lookup_col_setitem_eq. f_equal. f_equal.
    apply map_ext. intros r. by rewrite services_used_count.
Qed.

Lemma calculate_customer_metrics_values_sample :
  exists d' arpu,
    calculate_customer_metrics unit Samples.processor
    = (with_df unit Samples.processor d', Ok d') /\
    lookup_col "ARPU" d' = Some (FloatCol arpu) /\
    Forall2 (fun r a =>
               exists q, a = Fin q /\
                 (q == TotalCharges r / inject_Z (Z.max (Tenure r) 1))%Q)
            Samples.customers arpu.
Proof.
  destruct (calculate_customer_metrics_values unit Samples.processor Samples.customers)
    as (d' & arpu & E & _ & Harpu & Hall & _).
  - reflexivity.
  - exists d', arpu. auto.
Defined.

(** The three assignments are not undone: on a frame with numeric monthly
    charges and tenure but without total charges, the call raises the
    [KeyError] of TotalCharges, and the processor's frame has gained the
    CLV column all the same. *)
Theorem calculate_customer_metrics_stops_midway (S : Type) (p : DataProcessor S)
  (mc t : Column) (monthly tenure : list fval) :
  lookup_col "MonthlyCharges" (df p) = Some mc -> to_float mc = Ok monthly ->
  lookup_col "Tenure" (df p) = Some t -> to_float t = Ok tenure ->
  lookup_col "TotalCharges" (df p) = None ->
  calculate_customer_metrics S p
  = (with_df S p (setitem (df p) "CLV" (FloatCol (zip_with_f fmul monthly tenure))),
     Raise (KeyError "TotalCharges")).
Proof.
  intros Hmc Hm Ht Hten Htc. unfold calculate_customer_metrics, getitem.
  rewrite Hmc, Ht. cbn [rbind]. rewrite Hm, Hten. cbn [rbind].
  rewrite lookup_col_setitem_ne by discriminate. by rewrite Htc.
Qed.

Lemma calculate_customer_metrics_stops_midway_sample :
  calculate_customer_metrics unit Samples.uncharged_processor
  = (with_df unit Samples.uncharged_processor
       (setitem Samples.uncharged_frame "CLV" (FloatCol [Fin (50 * 3)])),
     Raise (KeyError "TotalCharges")).
Proof.
  apply (calculate_customer_metrics_stops_midway unit Samples.uncharged_processor
           (FloatCol [Fin 50]) (IntCol [3%Z]) [Fin 50] [of_int 3]);
    reflexivity.
Defined.

(** ** Feature preparation: the columns kept and the encoded target *)

Lemma columns_setitem_present (d : DataFrame) (name : string) (c c0 : Column) :
  lookup_col name d = Some c0 -> columns (setitem d name c) = columns d.
Proof.
  unfold columns. induction d as [|[n col] d IH]; simpl; [discriminate |].
  destruct (String.eqb n name); simpl; [done |]. intros H. by rewrite IH.
Qed.

Lemma lookup_col_present (d : DataFrame) (name : string) :
  In name (columns d) -> exists c, lookup_col name d = Some c.
Proof.
  unfold columns. induction d as [|[n col] d IH]; simpl; [done |].
  destruct (String.eqb_spec n name) as [->|Hn]; [eauto |].
  intros [?|H]; [done | by apply IH].
Qed.

Lemma columns_filter (keep : string -> bool) (d : DataFrame) :
  columns (List.filter (fun nc => keep (fst nc)) d) = List.filter keep (columns d).
Proof.
  unfold columns. induction d as [|[n col] d IH]; simpl; [done |].
  destruct (keep n); simpl; by rewrite IH.
Qed.

Lemma encode_columns_keep_names (cats : list string)
  (encs : gmap string LabelEncoder) (d : DataFrame) :
  columns (fold_left encode_column cats (encs, d)).2 = columns d.
Proof.
  revert encs d. induction cats as [|a cats IH]; intros encs d; [done |].
  cbn [fold_left]. rewrite encode_column_unfold.
  destruct (lookup_col a d) as [[| |values| |]|] eqn:Ea; rewrite IH; try done.
  by eapply columns_setitem_present.
Qed.

Lemma assign_columns_keep_names (names : list string) (values : list (list fval))
  (d : DataFrame) :
  Forall (fun n => In n (columns d)) names ->
  columns (assign_columns d names values) = columns d.
Proof.
  revert values d. induction names as [|n names IH]; intros values d Hall; [done |].
  destruct values as [|v values]; [done |]. cbn [assign_columns].
  inversion Hall as [|? ? Hn Hall']; subst.
  destruct (lookup_col_present d n Hn) as [c0 Hc0].
  rewrite IH; rewrite (columns_setitem_present d n _ c0 Hc0); done.
Qed.

Lemma select_dtypes_names (keep : Column -> bool) (d : DataFrame) :
  Forall (fun n => In n (columns d)) (select_dtypes keep d).
Proof.
  apply Forall_forall. intros n Hn. unfold select_dtypes in Hn.
  apply list_elem_of_In, in_map_iff in Hn as ([n' c] & <- & Hin).
  apply filter_In in Hin as [Hin _]. unfold columns.
  apply in_map_iff. by exists (n', c).
Qed.

(** When [prepare_model_data] returns, the feature matrix has the columns
    of the data set in their order, without CustomerID, LastUpdate and the
    target, whatever the scaler made of the values; the processor's data
    set is as before. *)
Theorem prepare_model_data_feature_columns (S : Type)
  (fit_transform : S -> list (list fval) -> S * result (list (list fval)))
  (p p' : DataProcessor S) (target : string) (X : DataFrame) (y : Column) :
  prepare_model_data S fit_transform p target = (p', Ok (X, y)) ->
  columns X
  = List.filter (fun n => negb (String.eqb n target))
      (List.filter (fun n => negb (existsb (String.eqb n) ["CustomerID"; "LastUpdate"]))
         (columns (df p))) /\
  ~ In target (columns X) /\
  ~ In "CustomerID" (columns X) /\ ~ In "LastUpdate" (columns X) /\
  df p' = df p.
Proof.
  unfold prepare_model_data. set (d0 := drop_ignore (df p) _).
  set (st := fold_left encode_column _ _).
  unfold drop_col. destruct (lookup_col target st.2) as [c|] eqn:Ec; [| by intros [= <-]].
  unfold getitem. rewrite Ec.
  set (X0 := List.filter _ st.2).
  destruct (fit_transform _ _) as [s' [scaled|e]] eqn:Efit; cbn [fst snd];
    [| by intros [= <-]].
  intros [= <- <- <-]. cbn [df].
  assert (columns (assign_columns X0 (select_dtypes is_numeric X0) scaled)
          = List.filter (fun n => negb (String.eqb n target))
              (List.filter
                 (fun n => negb (existsb (String.eqb n) ["CustomerID"; "LastUpdate"]))
                 (columns (df p)))) as Hcols.
  { rewrite assign_columns_keep_names by apply select_dtypes_names.
    unfold X0. rewrite (columns_filter (fun n => negb (String.eqb n target))).
    unfold st. rewrite encode_columns_keep_names. unfold d0, drop_ignore.
    by rewrite (columns_filter
                  (fun n => negb (existsb (String.eqb n) ["CustomerID"; "LastUpdate"]))). }
  split; [exact Hcols |]. rewrite Hcols.
  repeat split.
  - intros H. apply filter_In in H as [_ H]. by rewrite String.eqb_refl in H.
  - intros H. apply filter_In in H as [H _]. apply filter_In in H as [_ H].
    discriminate H.
  - intros H. apply filter_In in H as [H _]. apply filter_In in H as [_ H].
    discriminate H.
Qed.

Lemma prepare_model_data_feature_columns_sample :
  exists X,
    (prepare_model_data unit Samples.scaler_fit_transform Samples.processor "Churn").2
    = Ok (X, IntCol [0; 0; 0; 0]%Z) /\
    columns X
    = ["Gender"; "Age"; "Tenure"; "ContractType"; "MonthlyCharges"; "TotalCharges";
       "InternetService"; "PhoneService"; "StreamingTV"; "StreamingMovies";
       "PaymentMethod"; "SatisfactionScore"].
Proof.
  destruct (prepare_model_data unit Samples.scaler_fit_transform Samples.processor "Churn")
    as [p' [[X y]|e]] eqn:E; [| vm_compute in E; discriminate E].
  destruct (prepare_model_data_feature_columns unit Samples.scaler_fit_transform
              Samples.processor p' "Churn" X y E) as (Hcols & _).
  exists X. split; [| exact Hcols].
  vm_compute in E. injection E as _ _ <-. reflexivity.
Defined.

(** *** Codes and classes *)

Lemma insert_unique_In (s x : string) (l : list string) :
  In x (insert_unique s l) <-> x = s \/ In x l.
Proof.
  induction l as [|a l IH]; simpl; [intuition congruence |].
  destruct (String.compare s a) eqn:E; simpl.
  - apply String.compare_eq_iff in E. subst a. intuition congruence.
  - intuition congruence.
  - rewrite IH. intuition congruence.
Qed.

Lemma np_unique_In (x : string) (l : list string) : In x (np_unique l) <-> In x l.
Proof.
  unfold np_unique. induction l as [|a l IH]; simpl; [tauto |].
  rewrite insert_unique_In, IH. intuition congruence.
Qed.

Lemma index_of_decodes (s : string) (l : list string) :
  In s l -> (0 <= index_of s l)%Z /\ l !! Z.to_nat (index_of s l) = Some s.
Proof.
  induction l as [|a l IH]; simpl; [done |]. intros Hin.
  destruct (String.eqb_spec a s) as [->|Hne]; [done |].
  destruct Hin as [?|Hin]; [done |]. destruct (IH Hin) as [H0 Hl].
  split; [lia |]. replace (Z.to_nat (1 + index_of s l)) with (Datatypes.S (Z.to_nat (index_of s l))) by lia.
  exact Hl.
Qed.

Lemma encode_columns_frame (cats : list string)
  (encs : gmap string LabelEncoder) (d : DataFrame) (c : string) :
  lookup_col c (fold_left encode_column cats (encs, d)).2
  = match lookup_col c d with
    | Some (ObjCol values) =>
        if decide (c ∈ cats)
        then Some (IntCol (LabelEncoder_fit_transform values).2)
        else Some (ObjCol values)
    | other => other
    end.
Proof.
  revert encs d. induction cats as [|a cats IH]; intros encs d.
  { cbn [fold_left snd]. destruct (lookup_col c d) as [[]|]; try done;
      by rewrite decide_False by apply not_elem_of_nil. }
  cbn [fold_left]. rewrite encode_column_unfold.
  destruct (lookup_col a d) as [[| |values| |]|] eqn:Ea; rewrite IH.
  3: { destruct (decide (c = a)) as [->|Hne].
       - rewrite lookup_col_setitem_eq, Ea. by rewrite decide_True by left.
       - rewrite lookup_col_setitem_ne by done.
         destruct (lookup_col c d) as [[| |v| |]|]; try done.
         destruct (decide (c ∈ cats)), (decide (c ∈ a :: cats));
           first [done | exfalso; cons_member]. }
  all: destruct (lookup_col c d) as [[| |v| |]|] eqn:Ec; try done;
    destruct (decide (c ∈ cats)), (decide (c ∈ a :: cats)); try done; exfalso;
    assert (c <> a) by (intros ->; congruence); cons_member.
Qed.

(** A categorical target comes back as integer codes, and the encoder
    stored under its name decodes them: the class at each code is the
    value the record had. *)
Theorem prepare_model_data_target_decodes (S : Type)
  (fit_transform : S -> list (list fval) -> S * result (list (list fval)))
  (p p' : DataProcessor S) (target : string) (values : list string)
  (X : DataFrame) (y : Column) :
  lookup_col target (drop_ignore (df p) ["CustomerID"; "LastUpdate"])
  = Some (ObjCol values) ->
  prepare_model_data S fit_transform p target = (p', Ok (X, y)) ->
  exists classes codes,
    y = IntCol codes /\
    label_encoders p' !! target = Some {| classes_ := Some classes |} /\
    Forall2 (fun v code =>
               (0 <= code)%Z /\ classes !! Z.to_nat code = Some v) values codes.
Proof.
  intros Htarget. unfold prepare_model_data. set (d0 := drop_ignore (df p) _) in *.
  unfold drop_col, getitem. rewrite encode_columns_frame, Htarget.
  rewrite decide_True by (by eapply object_column_selected).
  destruct (fit_transform _ _) as [s' [scaled|e]] eqn:Efit; cbn [fst snd];
    [| by intros [= <-]].
  intros [= <- <- <-]. cbn [label_encoders].
  exists (np_unique values), (map (fun s => index_of s (np_unique values)) values).
  split; [reflexivity |]. split.
  - rewrite encode_columns_encoders. unfold encoder_after. rewrite Htarget.
    by rewrite decide_True by (by eapply object_column_selected).
  - apply Forall2_fmap_r, Forall_Forall2_diag, Forall_forall. intros v Hv.
    apply index_of_decodes, np_unique_In. by apply list_elem_of_In.
Qed.

Lemma prepare_model_data_target_decodes_sample :
  exists p' X classes codes,
    prepare_model_data unit Samples.scaler_fit_transform Samples.processor "ContractType"
    = (p', Ok (X, IntCol codes)) /\
    label_encoders p' !! "ContractType" = Some {| classes_ := Some classes |} /\
    Forall2 (fun v code =>
               (0 <= code)%Z /\ classes !! Z.to_nat code = Some v)
            ["Two Year"; "Month-to-Month"; "One Year"; "Month-to-Month"] codes.
Proof.
  destruct (prepare_model_data unit Samples.scaler_fit_transform Samples.processor
              "ContractType") as [p' [[X y]|e]] eqn:E; [| vm_compute in E; discriminate E].
  destruct (prepare_model_data_target_decodes unit Samples.scaler_fit_transform
              Samples.processor p' "ContractType"
              ["Two Year"; "Month-to-Month"; "One Year"; "Month-to-Month"] X y)
    as (classes & codes & -> & Henc & Hall); [reflexivity | exact E |].
  by exists p', X, classes, codes.
Defined.

(** ** Training and the state of the predictor *)

Section Training.
Variable Fitted : Type.
Variable Metrics : Type.
Variable train_test_split :
  DataFrame -> Column -> result (DataFrame * DataFrame * Column * Column).
Variable forest_fit :
  RandomForestClassifier Fitted -> DataFrame -> Column ->
  RandomForestClassifier Fitted * result unit.
Variable fitted_predict : Fitted -> DataFrame -> result Column.
Variable fitted_predict_proba : Fitted -> DataFrame -> result (list (list fval)).
Variable fitted_feature_importances : Fitted -> list fval.
Variable evaluate :
  RandomForestClassifier Fitted -> DataFrame -> Column -> Column -> Column ->
  list (list fval) -> result Metrics.
Variable sort_values_descending : list (string * fval) -> list (string * fval).

Let train' :=
  train Fitted Metrics train_test_split forest_fit fitted_predict
    fitted_predict_proba fitted_feature_importances evaluate sort_values_descending.

(** A call of [train] that returns leaves a trained predictor: its forest
    is fitted, so that [predict] is the forest's answer and no longer the
    error of the untrained state, and [get_top_features] returns the head
    of the stored ranking for every count. *)
Theorem train_returns_trained (p p' : ChurnPredictor Fitted) (X : DataFrame)
  (y : Column) (metrics : Metrics) :
  train' p X y = (p', Ok metrics) ->
  (exists f,
      estimators_ Fitted (model Fitted p') = Some f /\
      forall X', predict Fitted fitted_predict_proba p' X' = fitted_predict_proba f X') /\
  (exists ranking,
      feature_importance Fitted p' = Some ranking /\
      forall n, get_top_features Fitted p' n = Ok (head n ranking)).
Proof using Type.
  unfold train', train.
  destruct (train_test_split X y) as [[[[X_train X_test] y_train] y_test]|e];
    [| discriminate].
  destruct (forest_fit (model Fitted p) X_train y_train) as [m r]. cbn [fst snd].
  destruct r as [[]|e]; cbn [rbind]; [| discriminate].
  unfold model_predict, model_predict_proba, model_feature_importances.
  destruct (estimators_ Fitted m) as [f|] eqn:Ef; cbn [rbind]; [| discriminate].
  destruct (fitted_predict f X_test) as [y_pred|e]; cbn [rbind]; [| discriminate].
  destruct (fitted_predict_proba f X_test) as [y_prob|e]; cbn [rbind]; [| discriminate].
  destruct (evaluate m X y y_test y_pred y_prob) as [mt|e]; cbn [rbind];
    [| discriminate].
  intros [= <- <-]. split.
  - exists f. split; [exact Ef |]. intros X'. unfold predict, model_predict_proba.
    cbn [model]. by rewrite Ef.
  - eexists. split; [reflexivity |]. intros n. reflexivity.
Qed.

(** A call of [train] that raises never stores a ranking: the feature
    importances are those the predictor had before. *)
Theorem train_raises_keeps_ranking (p p' : ChurnPredictor Fitted) (X : DataFrame)
  (y : Column) (e : exn) :
  train' p X y = (p', Raise e) ->
  feature_importance Fitted p' = feature_importance Fitted p.
Proof using Type.
  unfold train', train.
  destruct (train_test_split X y) as [[[[X_train X_test] y_train] y_test]|e0];
    [| by intros [= <- _]].
  destruct (forest_fit (model Fitted p) X_train y_train) as [m r]. cbn [fst snd].
  destruct (rbind r _) as [[mt imp]|e0]; [discriminate |].
  by intros [= <- _].
Qed.

End Training.

Lemma train_returns_trained_sample :
  let p' := (train nat unit Samples.split Samples.fit Samples.fitted_labels
               Samples.fitted_proba Samples.importances Samples.metrics
               Samples.ranking (ChurnPredictor_init nat 100 10)
               [("Tenure", IntCol [1; 2]%Z)] (IntCol [0; 1]%Z)).1 in
  (exists f,
      estimators_ nat (model nat p') = Some f /\
      forall X', predict nat Samples.fitted_proba p' X' = Samples.fitted_proba f X') /\
  (exists ranking,
      feature_importance nat p' = Some ranking /\
      forall n, get_top_features nat p' n = Ok (head n ranking)).
Proof.
  intros p'.
  apply (train_returns_trained nat unit Samples.split Samples.fit Samples.fitted_labels
           Samples.fitted_proba Samples.importances Samples.metrics Samples.ranking
           (ChurnPredictor_init nat 100 10) p'
           [("Tenure", IntCol [1; 2]%Z)] (IntCol [0; 1]%Z) tt).
  reflexivity.
Defined.

Lemma train_raises_keeps_ranking_sample :
  feature_importance nat
    (train nat unit Samples.failing_split Samples.fit Samples.fitted_labels
       Samples.fitted_proba Samples.importances Samples.metrics Samples.ranking
       (ChurnPredictor_init nat 100 10)
       [("Tenure", IntCol [1; 2]%Z)] (IntCol [0; 1]%Z)).1
  = None.
Proof.
  apply (train_raises_keeps_ranking nat unit Samples.failing_split Samples.fit
           Samples.fitted_labels Samples.fitted_proba Samples.importances
           Samples.metrics Samples.ranking (ChurnPredictor_init nat 100 10) _
           [("Tenure", IntCol [1; 2]%Z)] (IntCol [0; 1]%Z)
           (ValueError "The least populated class in y has only 1 member")).
  reflexivity.
Defined.

(** ** The segmentation page and the frame *)

(** Whatever the inputs and whatever the page ends with, it changes no
    column of the frame but Segment; and when it has assigned segments,
    they are the labels of the clustering it ran with the requested number
    of clusters. *)
Theorem segmentation_page_only_sets_segment
  (standard_scale : list (list fval) -> result (list (list fval)))
  (KMeans_fit_predict : Z -> list (list fval) -> result (list Z))
  (render_tabs : DataFrame -> list string -> result (list ui_event))
  (d : DataFrame) (n_clusters : Z) (selected_features : list string) :
  let d' := (render_segmentation_page standard_scale KMeans_fit_predict render_tabs
               d n_clusters selected_features).1.1 in
  (forall c, c <> "Segment" -> lookup_col c d' = lookup_col c d) /\
  (d' = d \/
   exists data labels,
     KMeans_fit_predict n_clusters data = Ok labels /\
     d' = setitem d "Segment" (IntCol labels)).
Proof.
  intros d'. unfold d', render_segmentation_page.
  destruct (length selected_features <? 2)%nat; cbn [fst]; [by split; [| left] |].
  destruct (getitems d selected_features) as [cols|e]; cbn [rbind fst];
    [| by split; [| left]].
  destruct (to_floats cols) as [X|e]; cbn [rbind fst]; [| by split; [| left]].
  destruct (standard_scale _) as [Xs|e]; cbn [rbind fst]; [| by split; [| left]].
  destruct (KMeans_fit_predict n_clusters Xs) as [labels|e] eqn:Ek; cbn [fst];
    [| by split; [| left]].
  assert (forall c, c <> "Segment" ->
            lookup_col c (setitem d "Segment" (IntCol labels)) = lookup_col c d)
    as Hframe by (intros c Hc; by apply lookup_col_setitem_ne).
  destruct (render_tabs _ _) as [events|e]; cbn [fst];
    (split; [exact Hframe | right; by exists Xs, labels]).
Qed.

(** ** Recommendations *)

Lemma segmentation_page_only_sets_segment_sample :
  lookup_col "Tenure"
    (render_segmentation_page Samples.scale Samples.kmeans Samples.tabs
       (frame_of Samples.customers) 3 ["Tenure"; "MonthlyCharges"]).1.1
  = Some (IntCol [10; 0; 3; 6]%Z).
Proof.
  destruct (segmentation_page_only_sets_segment Samples.scale Samples.kmeans
              Samples.tabs (frame_of Samples.customers) 3
              ["Tenure"; "MonthlyCharges"]) as [H _].
  rewrite (H "Tenure"); [reflexivity | discriminate].
Defined.

Lemma first_true_find {A : Type} (f : A -> bool) (l : list A) (x : A) :
  List.find f l = Some x ->
  exists i, first_true (map f l) = Some i /\ l !! i = Some x.
Proof.
  induction l as [|a l IH]; simpl; [discriminate |].
  destruct (f a) eqn:Ea.
  - intros [= ->]. by exists 0%nat.
  - intros H. destruct (IH H) as (i & -> & Hi). by exists (Datatypes.S i).
Qed.

Lemma first_true_none {A : Type} (f : A -> bool) (l : list A) :
  Forall (fun a => f a = false) l -> first_true (map f l) = None.
Proof.
  induction 1 as [|a l Ha _ IH]; simpl; [done |]. by rewrite Ha, IH.
Qed.

(** The rules on a row of a frame of the schema are the rules on the
    record of that row. *)
Lemma personalized_rules_frame (rs : list CustomerRecord) (i : nat)
  (r : CustomerRecord) :
  rs !! i = Some r ->
  RecommendationEngine.personalized_rules (frame_of rs) i = Ok (recommend r).
Proof.
  intros Hi. unfold RecommendationEngine.personalized_rules,
    RecommendationEngine.row_item.
  assert (forall (f : CustomerRecord -> string),
            cell_at (ObjCol (map f rs)) i = CStr (f r)) as Hstr.
  { intros f. unfold cell_at. by rewrite list_lookup_fmap, Hi. }
  assert (forall (f : CustomerRecord -> Q),
            cell_at (FloatCol (map (fun x => Fin (f x)) rs)) i = CFloat (Fin (f r)))
    as Hnum.
  { intros f. unfold cell_at. by rewrite list_lookup_fmap, Hi. }
  assert (getitem (frame_of rs) "ContractType" = Ok (ObjCol (map ContractType rs)))
    as -> by reflexivity.
  assert (getitem (frame_of rs) "MonthlyCharges"
          = Ok (FloatCol (map (fun x => Fin (MonthlyCharges x)) rs))) as ->
    by reflexivity.
  assert (getitem (frame_of rs) "InternetService"
          = Ok (ObjCol (map InternetService rs))) as -> by reflexivity.
  assert (getitem (frame_of rs) "StreamingTV" = Ok (ObjCol (map StreamingTV rs)))
    as -> by reflexivity.
  assert (getitem (frame_of rs) "StreamingMovies"
          = Ok (ObjCol (map StreamingMovies rs))) as -> by reflexivity.
  assert (getitem (frame_of rs) "SatisfactionScore"
          = Ok (FloatCol (map (fun x => Fin (SatisfactionScore x)) rs))) as ->
    by reflexivity.
  cbn [rbind]. rewrite !Hstr, !Hnum.
  unfold recommend, cell_ne_str, cell_eq_str, cell_gt, cell_lt.
  destruct (String.eqb (ContractType r) "Month-to-Month"),
    (String.eqb (InternetService r) "No"),
    (String.eqb (StreamingTV r) "No"),
    (String.eqb (StreamingMovies r) "No"),
    (fltb (Fin (SatisfactionScore r)) (Fin 3)); reflexivity.
Qed.

Lemma get_personalized_recommendations_frame (rs : list CustomerRecord) (id : Z)
  (r : CustomerRecord) :
  List.find (fun x => Z.eqb (CustomerID x) id) rs = Some r ->
  RecommendationEngine.get_personalized_recommendations (frame_of rs) id
  = RecommendationEngine.Returns (recommend r).
Proof.
  intros Hfind. unfold RecommendationEngine.get_personalized_recommendations.
  assert (getitem (frame_of rs) "CustomerID" = Ok (IntCol (map CustomerID rs)))
    as -> by reflexivity.
  cbn [eq_int_mask]. rewrite map_map.
  destruct (first_true_find _ _ _ Hfind) as (i & -> & Hi).
  by rewrite (personalized_rules_frame rs i r Hi).
Qed.

(** For the first record with the given id, the engine returns at most
    four recommendations, none of low priority; the satisfaction review is
    among them exactly when the satisfaction score is below 3; a customer
    without internet service is offered no service addition, and only a
    month-to-month customer a contract upgrade. *)
Theorem personalized_recommendations_rules (rs : list CustomerRecord) (id : Z)
  (r : CustomerRecord) :
  List.find (fun x => Z.eqb (CustomerID x) id) rs = Some r ->
  exists recs,
    RecommendationEngine.get_personalized_recommendations (frame_of rs) id
    = RecommendationEngine.Returns recs /\
    (length recs <= 4)%nat /\
    Forall (fun rec => RecommendationEngine.priority rec = "High" \/
                       RecommendationEngine.priority rec = "Medium") recs /\
    (In RecommendationEngine.satisfaction_review recs <->
     (SatisfactionScore r < 3)%Q) /\
    (InternetService r = "No" ->
     Forall (fun rec => RecommendationEngine.type rec <> "Service Addition") recs) /\
    (ContractType r <> "Month-to-Month" ->
     Forall (fun rec => RecommendationEngine.type rec <> "Contract Upgrade") recs).
Proof.
  intros Hfind. exists (recommend r).
  split; [by apply get_personalized_recommendations_frame |].
  unfold recommend.
  assert (fltb (Fin (SatisfactionScore r)) (Fin 3) = true <->
          (SatisfactionScore r < 3)%Q) as Hsat.
  { split; [apply fltb_Fin_inv | apply fltb_Fin_true]. }
  destruct (String.eqb_spec (ContractType r) "Month-to-Month") as [Hc|Hc],
    (String.eqb_spec (InternetService r) "No") as [Hn|Hn],
    (String.eqb (StreamingTV r) "No"),
    (String.eqb (StreamingMovies r) "No"),
    (fltb (Fin (SatisfactionScore r)) (Fin 3)) eqn:Hlow,
    (fltb (Fin 70) (Fin (MonthlyCharges r)));
    cbn [negb app length];
    (split; [lia |]);
    (split; [repeat (apply List.Forall_cons; [simpl; auto |]); apply List.Forall_nil |]);
    (split; [rewrite <- Hsat; split;
             [ intros H; try reflexivity;
               repeat (destruct H as [H|H]; [discriminate H |]); destruct H
             | intros H; try discriminate H; simpl; auto 6 ] |]);
    (split; intros H; try done;
     repeat (apply List.Forall_cons; [simpl; discriminate |]); apply List.Forall_nil).
Qed.

Lemma personalized_recommendations_rules_sample :
  exists recs,
    RecommendationEngine.get_personalized_recommendations (frame_of Samples.customers) 2
    = RecommendationEngine.Returns recs /\
    (length recs <= 4)%nat /\
    (In RecommendationEngine.satisfaction_review recs <-> (1 < 3)%Q).
Proof.
  destruct (personalized_recommendations_rules Samples.customers 2
              (Samples.customer 2 0 "Month-to-Month" "Electronic check" 70 0 1 "No" "No"))
    as (recs & E & Hlen & _ & Hsat & _).
  - reflexivity.
  - exists recs. auto.
Defined.

(** An id that no record carries: the selection is empty and its first
    row does not exist, which is an [IndexError], not an empty list. *)
Theorem unknown_customer_raises (rs : list CustomerRecord) (id : Z) :
  Forall (fun r => CustomerID r <> id) rs ->
  RecommendationEngine.get_personalized_recommendations (frame_of rs) id
  = RecommendationEngine.Raises
      (RecommendationEngine.IndexError "single positional indexer is out-of-bounds").
Proof.
  intros Hall. unfold RecommendationEngine.get_personalized_recommendations.
  assert (getitem (frame_of rs) "CustomerID" = Ok (IntCol (map CustomerID rs)))
    as -> by reflexivity.
  cbn [eq_int_mask]. rewrite map_map, first_true_none; [done |].
  eapply Forall_impl; [exact Hall |]. intros r Hr. by apply Z.eqb_neq.
Qed.

Lemma unknown_customer_raises_sample :
  RecommendationEngine.get_personalized_recommendations (frame_of Samples.customers) 9
  = RecommendationEngine.Raises
      (RecommendationEngine.IndexError "single positional indexer is out-of-bounds").
Proof.
  apply (unknown_customer_raises Samples.customers 9).
  repeat (apply List.Forall_cons; [simpl; lia |]). apply List.Forall_nil.
Defined.

Lemma select_rows_none {A B : Type} (f : B -> bool) (segs : list B) (l : list A) :
  Forall (fun s => f s = false) segs -> select_rows (map f segs) l = [].
Proof.
  intros Hall. revert l. induction Hall as [|s segs Hs _ IH]; intros [|x l];
    simpl; try done. by rewrite Hs.
Qed.

(** A segment without customers gets no recommendation: the three means
    over no rows are NaN, and every comparison with NaN is false. *)
Theorem empty_segment_gets_no_recommendation (d : DataFrame) (segment : Z)
  (segs : list Z) (sat churn tenure : Column) (sats churns tenures : list fval) :
  lookup_col "Segment" d = Some (IntCol segs) ->
  Forall (fun s => s <> segment) segs ->
  lookup_col "SatisfactionScore" d = Some sat -> to_float sat = Ok sats ->
  lookup_col "Churn" d = Some churn -> to_float churn = Ok churns ->
  lookup_col "Tenure" d = Some tenure -> to_float tenure = Ok tenures ->
  RecommendationEngine.get_segment_recommendations d segment = Ok [].
Proof.
  intros Hseg Hall Hsat Hsats Hchurn Hchurns Hten Htens.
  unfold RecommendationEngine.get_segment_recommendations,
    RecommendationEngine.segment_mean, getitem.
  rewrite Hseg, Hsat, Hchurn, Hten. cbn [rbind eq_int_mask].
  rewrite Hsats, Hchurns, Htens. cbn [rbind].
  assert (Forall (fun s => Z.eqb s segment = false) segs) as Hmask.
  { eapply Forall_impl; [exact Hall |]. intros s Hs. by apply Z.eqb_neq. }
  rewrite !(select_rows_none _ _ _ Hmask). reflexivity.
Qed.

Lemma empty_segment_gets_no_recommendation_sample :
  RecommendationEngine.get_segment_recommendations Samples.segmented_frame 5 = Ok [].
Proof.
  apply (empty_segment_gets_no_recommendation Samples.segmented_frame 5
           [0; 1; 0; 1]%Z
           (FloatCol [Fin 5; Fin 1; Fin (7 # 2); Fin 4]) (IntCol [0; 0; 0; 0]%Z)
           (IntCol [10; 0; 3; 6]%Z)
           [Fin 5; Fin 1; Fin (7 # 2); Fin 4]
           (map of_int [0; 0; 0; 0]%Z) (map of_int [10; 0; 3; 6]%Z));
    try reflexivity.
  repeat (apply List.Forall_cons; [lia |]). apply List.Forall_nil.
Defined.
